(** * Tango transport of ophyd-async: a shallow embedding

    This development embeds
    [src/ophyd_async/tango/_backend/_tango_transport.py] and states the
    properties of its type mapper ([get_pyton_type]), descriptor builder
    ([get_trl_descriptor]), resource resolver ([get_tango_trl]), the two
    endpoint proxies ([AttributeProxy], [CommandProxy]) and the transport
    ([TangoTransport]).

    Conventions.
    - A Python call that may raise is a value of [Result]: [Ok v] or
      [Raise e] with [e : PyExn].
    - A call into the Tango client library (PyTango) is not executed here:
      its outcome is an argument of the embedded function, and the calls the
      code performs are recorded in a trace where a property depends on them.
    - A Python [dict] whose order is observed ([trl_configs], whose first
      value gives the dimensions) is the list of its items in insertion
      order; the transport's [proxies] map, which is only ever looked up
      and overwritten by key, is a [gmap].
    - Time is rational: seconds as [Q]. *)

From Stdlib Require Import ZArith QArith Lia Ascii String.
From stdpp Require Import base strings list gmap.

Local Open Scope string_scope.

(** ** Python exceptions and fallible computations *)

Inductive PyExn : Type :=
| TypeError (msg : string)
| RuntimeError (msg : string)
| NameError (msg : string)
| ValueError (msg : string)
| AssertionError (msg : string)
| AttributeError (msg : string)
| KeyError (key : string)
| IndexError (msg : string)
| CancelledError
| NotConnected (msg : string)
| DevFailed (msg : string).

Inductive Result (A : Type) : Type :=
| Ok (a : A)
| Raise (e : PyExn).
Arguments Ok {A} a.
Arguments Raise {A} e.

Definition bind {A B : Type} (r : Result A) (k : A -> Result B) : Result B :=
  match r with
  | Ok a => k a
  | Raise e => Raise e
  end.

Notation "x <- r ;;; k" := (bind r (fun x => k))
  (at level 100, r at next level, right associativity).

Definition is_ok {A : Type} (r : Result A) : bool :=
  match r with Ok _ => true | Raise _ => false end.

(** ** Remote type tags ([tango.CmdArgType]) and [tango.utils] *)

Inductive CmdArgType : Type :=
| DevVoid | DevBoolean | DevShort | DevLong | DevFloat | DevDouble
| DevUShort | DevULong | DevString
| DevVarCharArray | DevVarShortArray | DevVarLongArray | DevVarFloatArray
| DevVarDoubleArray | DevVarUShortArray | DevVarULongArray
| DevVarStringArray | DevVarLongStringArray | DevVarDoubleStringArray
| DevState | ConstDevString | DevVarBooleanArray | DevUChar
| DevLong64 | DevULong64 | DevVarLong64Array | DevVarULong64Array
| DevInt | DevEncoded | DevEnum | DevPipeBlob | DevVarStateArray.

Global Instance CmdArgType_eq_dec : EqDecision CmdArgType.
Proof. solve_decision. Defined.

(** The predicates of [tango.utils] that the type mapper calls.  They
    belong to PyTango, so the mapper is embedded over any implementation
    of them. *)
Record TangoUtils : Type := {
  is_int : CmdArgType -> bool -> bool;
  is_float : CmdArgType -> bool -> bool;
  is_bool : CmdArgType -> bool -> bool;
  is_str : CmdArgType -> bool -> bool;
  is_binary : CmdArgType -> bool -> bool;
  is_array : CmdArgType -> bool
}.

(** The Python objects [get_pyton_type] returns as second component. *)
Inductive PyType : Type :=
| py_int | py_float | py_bool | py_str | py_list_str
| py_Enum | py_DevState | py_None.

Global Instance PyType_eq_dec : EqDecision PyType.
Proof. solve_decision. Defined.

(** [get_pyton_type], lines 66-86. *)
Definition get_pyton_type (U : TangoUtils) (tango_type : CmdArgType)
  : Result (bool * PyType * string) :=
  let array := is_array U tango_type in
  if is_int U tango_type true then Ok (array, py_int, "integer")
  else if is_float U tango_type true then Ok (array, py_float, "number")
  else if is_bool U tango_type true then Ok (array, py_bool, "integer")
  else if is_str U tango_type true then Ok (array, py_str, "string")
  else if is_binary U tango_type true then Ok (array, py_list_str, "string")
  else if decide (tango_type = DevEnum) then Ok (array, py_Enum, "string")
  else if decide (tango_type = DevState) then Ok (array, py_DevState, "string")
  else if decide (tango_type = DevUChar) then Ok (array, py_int, "integer")
  else if decide (tango_type = DevVoid) then Ok (array, py_None, "string")
  else Raise (TypeError "Unknown TangoType").

(** PyTango's tables ([tango/utils.py]): [_scalar_int_types],
    [_array_int_types], and so on.  [is_binary] ignores its second
    argument there. *)
Module PyTango.

Definition mem (t : CmdArgType) (l : list CmdArgType) : bool :=
  bool_decide (t ∈ l).

Definition scalar_int_types : list CmdArgType :=
  [DevShort; DevUShort; DevInt; DevLong; DevULong; DevLong64; DevULong64].
Definition array_int_types : list CmdArgType :=
  [DevVarShortArray; DevVarUShortArray; DevVarLongArray; DevVarULongArray;
   DevVarLong64Array; DevVarULong64Array].
Definition scalar_float_types : list CmdArgType := [DevFloat; DevDouble].
Definition array_float_types : list CmdArgType :=
  [DevVarFloatArray; DevVarDoubleArray].
Definition scalar_bool_types : list CmdArgType := [DevBoolean].
Definition array_bool_types : list CmdArgType := [DevVarBooleanArray].
Definition scalar_str_types : list CmdArgType := [DevString; ConstDevString].
Definition array_str_types : list CmdArgType := [DevVarStringArray].
Definition binary_types : list CmdArgType := [DevEncoded; DevVarCharArray].
Definition array_types : list CmdArgType :=
  array_int_types ++ array_float_types ++ array_bool_types
    ++ array_str_types
    ++ [DevVarCharArray; DevVarDoubleStringArray; DevVarLongStringArray].

Definition family (scalars arrays : list CmdArgType)
    (t : CmdArgType) (inc_array : bool) : bool :=
  if mem t scalars then true
  else if negb inc_array then false
  else mem t arrays.

Definition utils : TangoUtils := {|
  is_int := family scalar_int_types array_int_types;
  is_float := family scalar_float_types array_float_types;
  is_bool := family scalar_bool_types array_bool_types;
  is_str := family scalar_str_types array_str_types;
  is_binary := fun t _ => mem t binary_types;
  is_array := fun t => mem t array_types
|}.

End PyTango.

(** The mapping table as the specification words it: a tag belongs to at
    most one family, a family fixes kind and description, and array-ness
    is a separate column. *)
Module MapTypeSpec.

Inductive Family : Type :=
| IntegerFamily | FloatFamily | BooleanFamily | StringFamily
| BinaryFamily | EnumFamily | StateFamily | VoidFamily.

Definition family_of (t : CmdArgType) : option Family :=
  match t with
  | DevShort | DevUShort | DevInt | DevLong | DevULong | DevLong64
  | DevULong64 | DevUChar
  | DevVarShortArray | DevVarUShortArray | DevVarLongArray
  | DevVarULongArray | DevVarLong64Array | DevVarULong64Array =>
      Some IntegerFamily
  | DevFloat | DevDouble | DevVarFloatArray | DevVarDoubleArray =>
      Some FloatFamily
  | DevBoolean | DevVarBooleanArray => Some BooleanFamily
  | DevString | ConstDevString | DevVarStringArray => Some StringFamily
  | DevEncoded | DevVarCharArray => Some BinaryFamily
  | DevEnum => Some EnumFamily
  | DevState => Some StateFamily
  | DevVoid => Some VoidFamily
  | DevVarLongStringArray | DevVarDoubleStringArray | DevPipeBlob
  | DevVarStateArray => None
  end.

Definition array_shaped (t : CmdArgType) : bool :=
  match t with
  | DevVarCharArray | DevVarShortArray | DevVarLongArray
  | DevVarFloatArray | DevVarDoubleArray | DevVarUShortArray
  | DevVarULongArray | DevVarStringArray | DevVarLongStringArray
  | DevVarDoubleStringArray | DevVarBooleanArray | DevVarLong64Array
  | DevVarULong64Array => true
  | _ => false
  end.

Definition scalarKind (f : Family) : PyType :=
  match f with
  | IntegerFamily => py_int
  | FloatFamily => py_float
  | BooleanFamily => py_bool
  | StringFamily => py_str
  | BinaryFamily => py_list_str
  | EnumFamily => py_Enum
  | StateFamily => py_DevState
  | VoidFamily => py_None
  end.

Definition description (f : Family) : string :=
  match f with
  | IntegerFamily | BooleanFamily => "integer"
  | FloatFamily => "number"
  | _ => "string"
  end.

Definition UnsupportedType : PyExn := TypeError "Unknown TangoType".

Definition mapType (t : CmdArgType) : Result (bool * PyType * string) :=
  match family_of t with
  | Some f => Ok (array_shaped t, scalarKind f, description f)
  | None => Raise UnsupportedType
  end.

End MapTypeSpec.

(** ** Endpoint configurations and descriptors *)

Inductive AttrDataFormat : Type := SCALAR | SPECTRUM | IMAGE | FMT_UNKNOWN.

Global Instance AttrDataFormat_eq_dec : EqDecision AttrDataFormat.
Proof. solve_decision. Defined.

Record AttributeInfoEx : Type := {
  data_type : CmdArgType;
  data_format : AttrDataFormat;
  max_dim_x : Z;
  max_dim_y : Z;
  enum_labels : list string
}.

Record CommandInfo : Type := {
  in_type : CmdArgType;
  out_type : CmdArgType
}.

(** What a [tr_configs] entry can be: the two classes the builder knows,
    and any other object (its class name kept for the message). *)
Inductive Config : Type :=
| AttrConfig (c : AttributeInfoEx)
| CmdConfig (c : CommandInfo)
| OtherConfig (type_name : string).

(** A dimension of a shape: an integer, or [np.Inf] where the config has
    no [max_dim_x] / [max_dim_y]. *)
Inductive Dim : Type :=
| Finite (n : Z)
| Inf.

Record Descriptor : Type := {
  source : string;
  dtype : string;
  shape : list Dim;
  choices : option (list string)
}.

(** The expected type [datatype], through the observations the builder
    makes of it.  [dt_accepts] answers for every kind; Python's
    [issubclass] itself raises TypeError when the kind is [None] or
    [list[str]], which is a failure of the same class as the refusal. *)
Record Datatype : Type := {
  dt_name : string;                   (* datatype.__name__ *)
  dt_extended : bool;                 (* truth of get_dtype_extended(datatype) *)
  dt_extended_eq : PyType -> bool;    (* get_dtype_extended(datatype) == tr_dtype *)
  dt_is_enum : bool;                  (* issubclass(datatype, (Enum, DevState)) *)
  dt_member_names : list string;      (* v.name for v in datatype *)
  dt_accepts : PyType -> bool         (* issubclass(tr_dtype, datatype) *)
}.

Definition show_PyType (t : PyType) : string :=
  match t with
  | py_int => "<class 'int'>"
  | py_float => "<class 'float'>"
  | py_bool => "<class 'bool'>"
  | py_str => "<class 'str'>"
  | py_list_str => "list[str]"
  | py_Enum => "<enum 'Enum'>"
  | py_DevState => "DevState"
  | py_None => "None"
  end.

Definition name_PyType (t : PyType) : string :=
  match t with
  | py_int => "int"
  | py_float => "float"
  | py_bool => "bool"
  | py_str => "str"
  | py_list_str => "list"
  | py_Enum => "Enum"
  | py_DevState => "DevState"
  | py_None => "NoneType"
  end.

Definition show_list (l : list string) : string :=
  "[" +:+ String.concat ", " l +:+ "]".

(** [set(a) != set(b)] on lists of labels. *)
Definition same_set (a b : list string) : bool :=
  forallb (fun x => bool_decide (x ∈ b)) a
  && forallb (fun x => bool_decide (x ∈ a)) b.

Definition TypeId : Type := AttrDataFormat * PyType * string.

(** Modelled from the spec: [get_unique] of [ophyd_async.core], which is
    not among the sources.  All configs of one transport must agree on
    their (format, kind, description) triple: the common value is
    returned, and any disagreement (or no value at all) is a type
    mismatch. *)
Definition get_unique (values : list (string * TypeId)) (types : string)
  : Result TypeId :=
  match values with
  | [] => Raise (TypeError ("no " +:+ types))
  | (_, v) :: rest =>
      if forallb (fun kv => bool_decide (kv.2 = v)) rest then Ok v
      else Raise (TypeError ("different " +:+ types))
  end.

Definition mismatch_msg : string :=
  "Commands with different in and out dtypes are not supported".

(** One pass of the [for tr_name, config in tr_configs.items()] loop,
    lines 274-286. *)
Definition typeid_of (U : TangoUtils) (config : Config) : Result TypeId :=
  match config with
  | AttrConfig c =>
      r <- get_pyton_type U (data_type c) ;;;
      Ok (data_format c, r.1.2, r.2)
  | CmdConfig c =>
      if bool_decide (in_type c <> DevVoid)
         && bool_decide (out_type c <> DevVoid)
         && bool_decide (in_type c <> out_type c)
      then Raise (RuntimeError mismatch_msg)
      else
        r <- get_pyton_type U
               (if bool_decide (in_type c <> DevVoid) then in_type c
                else out_type c) ;;;
        Ok (if r.1.1 then SPECTRUM else SCALAR, r.1.2, r.2)
  | OtherConfig n => Raise (RuntimeError ("Unknown config type: " +:+ n))
  end.

Fixpoint typeids (U : TangoUtils) (items : list (string * Config))
  : Result (list (string * TypeId)) :=
  match items with
  | [] => Ok []
  | (tr_name, config) :: rest =>
      t <- typeid_of U config ;;;
      ts <- typeids U rest ;;;
      Ok ((tr_name, t) :: ts)
  end.

(** [hasattr(trl_config, "max_dim_x")] and the like, lines 291-294. *)
Definition max_x_of (c : Config) : Dim :=
  match c with AttrConfig a => Finite (max_dim_x a) | _ => Inf end.
Definition max_y_of (c : Config) : Dim :=
  match c with AttrConfig a => Finite (max_dim_y a) | _ => Inf end.
Definition is_attr_of (c : Config) : bool :=
  match c with AttrConfig _ => true | _ => false end.
Definition choices_of (c : Config) : list string :=
  match c with AttrConfig a => enum_labels a | _ => [] end.

(** [list(DevState.names.keys())] *)
Definition DevState_names : list string :=
  ["ON"; "OFF"; "CLOSE"; "OPEN"; "INSERT"; "EXTRACT"; "MOVING"; "STANDBY";
   "FAULT"; "INIT"; "RUNNING"; "ALARM"; "DISABLE"; "UNKNOWN"].

(** [get_trl_descriptor], lines 270-327.  [tr_configs] is the dict's
    items in insertion order. *)
Definition get_trl_descriptor (U : TangoUtils) (datatype : option Datatype)
    (tango_resource : string) (tr_configs : list (string * Config))
  : Result Descriptor :=
  tr_dtype <- typeids U tr_configs ;;;
  u <- get_unique tr_dtype "typeids" ;;;
  let tr_format := u.1.1 in
  let tr_dtype := u.1.2 in
  let tr_dtype_desc := u.2 in
  match tr_configs with
  | [] => Raise (IndexError "list index out of range")
  | (_, trl_config) :: _ =>
      let max_x := max_x_of trl_config in
      let max_y := max_y_of trl_config in
      let is_attr := is_attr_of trl_config in
      let trl_choices := choices_of trl_config in
      if bool_decide (tr_format = SPECTRUM) || bool_decide (tr_format = IMAGE)
      then
        _ <- match datatype with
             | Some dt =>
                 if negb (dt_extended dt) then
                   Raise (TypeError (tango_resource +:+ " has type ["
                            +:+ show_PyType tr_dtype +:+ "] not "
                            +:+ dt_name dt))
                 else if negb (dt_extended_eq dt tr_dtype) then
                   Raise (TypeError (tango_resource +:+ " has type ["
                            +:+ show_PyType tr_dtype +:+ "] not ["
                            +:+ dt_name dt +:+ "]"))
                 else Ok tt
             | None => Ok tt
             end ;;;
        if bool_decide (tr_format = SPECTRUM) then
          Ok {| source := tango_resource; dtype := "array";
                shape := [max_x]; choices := None |}
        else
          Ok {| source := tango_resource; dtype := "array";
                shape := [max_y; max_x]; choices := None |}
      else if bool_decide (tr_dtype = py_Enum)
              || bool_decide (tr_dtype = py_DevState)
      then
        let trl_choices :=
          if bool_decide (tr_dtype = py_DevState) then DevState_names
          else trl_choices in
        _ <- match datatype with
             | Some dt =>
                 if negb (dt_is_enum dt) then
                   Raise (TypeError (tango_resource +:+ " has type Enum not "
                            +:+ dt_name dt))
                 else if bool_decide (tr_dtype = py_Enum) && is_attr
                         && negb (same_set (dt_member_names dt) trl_choices)
                 then
                   Raise (TypeError (tango_resource +:+ " has choices "
                            +:+ show_list trl_choices +:+ " not "
                            +:+ show_list (dt_member_names dt)))
                 else Ok tt
             | None => Ok tt
             end ;;;
        Ok {| source := tango_resource; dtype := "string"; shape := [];
              choices := Some trl_choices |}
      else
        _ <- match datatype with
             | Some dt =>
                 if negb (dt_accepts dt tr_dtype) then
                   Raise (TypeError (tango_resource +:+ " has type "
                            +:+ name_PyType tr_dtype +:+ " not "
                            +:+ dt_name dt))
                 else Ok tt
             | None => Ok tt
             end ;;;
        Ok {| source := tango_resource; dtype := tr_dtype_desc; shape := [];
              choices := None |}
  end.

(** ** Values, readings and the device handle *)

Inductive PyVal : Type :=
| VNone
| VBool (b : bool)
| VInt (n : Z)
| VFloat (x : Q)
| VStr (s : string)
| VSeq (l : list Z).

(** [AttrQuality.ATTR_VALID], the quality the command proxy writes as the
    literal 0. *)
Definition ATTR_VALID : Z := 0%Z.

Record Reading : Type := {
  value : PyVal;
  timestamp : Q;
  alarm_severity : Z
}.

(** A connected [tango.asyncio.DeviceProxy], through what the resolver
    asks of it. *)
Record DeviceProxy : Type := {
  name : string;
  get_attribute_list : list string;
  get_command_list : list string;
  get_pipe_list : list string
}.

(** What [read_attribute] returns. *)
Record DeviceAttribute : Type := {
  attr_value : PyVal;
  attr_w_value : PyVal;
  attr_time : Q;
  attr_quality : Z
}.

(** Identity of a Python callable handed in as a callback. *)
Definition Callback : Type := nat.

(** Calls on the device handle that open or release a subscription. *)
Inductive DeviceCall : Type :=
| subscribe_event (attr_name : string)
| unsubscribe_event (eid : Z).

(** A method that mutates [self]: the object afterwards (also when it
    raises), the subscription calls it made, and how it ended. *)
Record Effect (S : Type) : Type := {
  after : S;
  calls : list DeviceCall;
  result : Result unit
}.
Arguments after {S} _.
Arguments calls {S} _.
Arguments result {S} _.

(** A coroutine with a loop: it has returned (or raised) after [slept]
    sleeps, or it is still in the loop when the fuel is spent. *)
Inductive Outcome (A : Type) : Type :=
| Returns (r : Result A) (slept : nat)
| Running (slept : nat).
Arguments Returns {A} r slept.
Arguments Running {A} slept.

(** ** The reply-polling loop *)

(** [A_BIT = 1e-5], line 37. *)
Definition A_BIT : Q := (1 # 100000)%Q.

(** Time spent asleep after [n] passes of the loop. *)
Definition slept_time (n : nat) : Q := (inject_Z (Z.of_nat n) * A_BIT)%Q.

(** Names bound at module level: the imports of lines 1-31 and the
    definitions of the module.  No builtin is called [dev]. *)
Definition module_globals : list string :=
  ["asyncio"; "time"; "functools"; "np"; "CancelledError"; "abstractmethod";
   "Enum"; "Dict"; "Optional"; "Type"; "Union"; "AttributeInfoEx";
   "AttrDataFormat"; "CmdArgType"; "EventType"; "GreenMode"; "DevState";
   "CommandInfo"; "AttrWriteType"; "DeviceProxy"; "get_global_executor";
   "set_global_executor"; "AsyncioExecutor"; "is_int"; "is_float";
   "is_bool"; "is_str"; "is_binary"; "is_array"; "Descriptor"; "Reading";
   "NotConnected"; "ReadingValueCallback"; "SignalBackend"; "T";
   "get_dtype"; "get_unique"; "wait_for_connection"; "__all__"; "A_BIT";
   "ensure_proper_executor"; "TangoSignalBackend"; "get_pyton_type";
   "TangoProxy"; "AttributeProxy"; "CommandProxy"; "get_dtype_extended";
   "get_trl_descriptor"; "get_tango_trl"; "TangoTransport"].

(** The local names of both [put] methods. *)
Definition put_locals : list string :=
  ["self"; "value"; "wait"; "timeout"; "rid"; "finished"; "val"].

(** Evaluating a bare name inside [put]. *)
Definition load_name (x : string) : Result unit :=
  if bool_decide (x ∈ (put_locals ++ module_globals)%list) then Ok tt
  else Raise (NameError ("name '" +:+ x +:+ "' is not defined")).

(** Outcomes of the library calls a [put] can make. *)
Record PutEnv : Type := {
  sync_call : Result PyVal;          (* write_attribute / command_inout *)
  asynch_call : Result Z;            (* ..._asynch: the request id *)
  reply : Z -> nat -> Result PyVal;  (* the n-th ..._reply(rid), if called *)
  sleep : nat -> Result unit;        (* the n-th asyncio.sleep(A_BIT) *)
  now : Q                            (* time.time() *)
}.

(** [if timeout:] on an [Optional[float]]. *)
Definition truthy_timeout (timeout : option Q) : bool :=
  match timeout with
  | None => false
  | Some t => negb (Qnum t =? 0)%Z
  end.

(** The expression [dev.write_attribute_reply(rid)] (likewise
    [dev.command_inout_reply(rid)]): the name [dev] is looked up first. *)
Definition reply_attempt (env : PutEnv) (rid : Z) (n : nat) : Result PyVal :=
  _ <- load_name "dev" ;;;
  reply env rid n.

(** The loop of lines 165-171 and 238-244:
    [while not finished: try: val = ...; finished = True
     except: await asyncio.sleep(A_BIT)].
    [n] counts the passes made so far.  The bare [except] catches whatever
    the attempt raises; an exception out of the sleep leaves the loop. *)
Fixpoint poll (attempt : nat -> Result PyVal) (sleep : nat -> Result unit)
    (fuel n : nat) : Outcome PyVal :=
  match fuel with
  | O => Running n
  | S fuel' =>
      match attempt n with
      | Ok v => Returns (Ok v) n
      | Raise _ =>
          match sleep n with
          | Ok _ => poll attempt sleep fuel' (S n)
          | Raise e => Returns (Raise e) n
          end
      end
  end.

(** [bool(self._eid)] *)
Definition truthy_eid (eid : option Z) : bool :=
  match eid with
  | None => false
  | Some n => negb (n =? 0)%Z
  end.

(** A change event as [_event_processor] reads it: [event.err],
    [event.attr_value] and [event.get_date().totime()]. *)
Record EventData : Type := {
  ev_err : bool;
  ev_attr_value : DeviceAttribute;
  ev_date : Q
}.

(** A call [callback(reading, value)] made by the event processor. *)
Record Delivery : Type := {
  to_callback : Callback;
  with_reading : Reading;
  with_value : PyVal
}.

(** ** Endpoint proxy, attribute variant (lines 139-216) *)
Module AttributeProxy.

Record t : Type := {
  _proxy : DeviceProxy;
  _name : string;
  _event_callback : option Callback;
  _eid : option Z
}.

Definition support_events : bool := true.

Definition __init__ (device_proxy : DeviceProxy) (name : string) : t :=
  {| _proxy := device_proxy; _name := name;
     _event_callback := None; _eid := None |}.

Definition get (self : t) (read_attribute : Result DeviceAttribute)
  : Result PyVal :=
  attr <- read_attribute ;;; Ok (attr_value attr).

Definition get_w_value (self : t) (read_attribute : Result DeviceAttribute)
  : Result PyVal :=
  attr <- read_attribute ;;; Ok (attr_w_value attr).

Definition put (self : t) (value : PyVal) (wait : bool)
    (timeout : option Q) (env : PutEnv) (fuel : nat) : Outcome unit :=
  if wait then
    Returns (_ <- sync_call env ;;; Ok tt) 0
  else
    match asynch_call env with
    | Raise e => Returns (Raise e) 0
    | Ok rid =>
        if truthy_timeout timeout then
          match poll (reply_attempt env rid) (sleep env) fuel 0 with
          | Returns (Ok _) n => Returns (Ok tt) n
          | Returns (Raise e) n => Returns (Raise e) n
          | Running n => Running n
          end
        else Returns (Ok tt) 0
    end.

Definition get_reading (self : t) (read_attribute : Result DeviceAttribute)
  : Result Reading :=
  attr <- read_attribute ;;;
  Ok {| value := attr_value attr; timestamp := attr_time attr;
        alarm_severity := attr_quality attr |}.

Definition has_subscription (self : t) : bool := truthy_eid (_eid self).

(** [subscribed] is the outcome of [subscribe_event], should it be
    called. *)
Definition subscribe_callback (self : t) (callback : option Callback)
    (subscribed : Result Z) : Effect t :=
  let self1 := {| _proxy := _proxy self; _name := _name self;
                  _event_callback := callback; _eid := _eid self |} in
  if negb (truthy_eid (_eid self1)) then
    match subscribed with
    | Ok eid =>
        {| after := {| _proxy := _proxy self; _name := _name self;
                       _event_callback := callback; _eid := Some eid |};
           calls := [subscribe_event (_name self)];
           result := Ok tt |}
    | Raise e =>
        {| after := self1; calls := [subscribe_event (_name self)];
           result := Raise e |}
    end
  else {| after := self1; calls := []; result := Ok tt |}.

(** [released] is the outcome of [unsubscribe_event], should it be
    called. *)
Definition unsubscribe_callback (self : t) (released : Result unit)
  : Effect t :=
  match _eid self with
  | Some eid =>
      if truthy_eid (Some eid) then
        match released with
        | Ok _ =>
            {| after := {| _proxy := _proxy self; _name := _name self;
                           _event_callback := None; _eid := None |};
               calls := [unsubscribe_event eid]; result := Ok tt |}
        | Raise e =>
            {| after := self; calls := [unsubscribe_event eid];
               result := Raise e |}
        end
      else
        {| after := {| _proxy := _proxy self; _name := _name self;
                       _event_callback := None; _eid := Some eid |};
           calls := []; result := Ok tt |}
  | None =>
      {| after := {| _proxy := _proxy self; _name := _name self;
                     _event_callback := None; _eid := None |};
         calls := []; result := Ok tt |}
  end.

(** [_event_processor], lines 209-216: the call it makes, if any.  With
    no callback stored the call is a call of [None]. *)
Definition _event_processor (self : t) (event : EventData)
  : Result (option Delivery) :=
  if negb (ev_err event) then
    let value := attr_value (ev_attr_value event) in
    let reading := {| value := value; timestamp := ev_date event;
                      alarm_severity := attr_quality (ev_attr_value event) |} in
    match _event_callback self with
    | Some cb =>
        Ok (Some {| to_callback := cb; with_reading := reading;
                    with_value := value |})
    | None => Raise (TypeError "'NoneType' object is not callable")
    end
  else Ok None.

End AttributeProxy.

(** ** Endpoint proxy, command variant (lines 220-255) *)
Module CommandProxy.

Record t : Type := {
  _proxy : DeviceProxy;
  _name : string;
  _last_reading : Reading
}.

Definition support_events : bool := false.

Definition __init__ (device_proxy : DeviceProxy) (name : string) : t :=
  {| _proxy := device_proxy; _name := name;
     _last_reading :=
       {| value := VNone; timestamp := 0%Q; alarm_severity := 0%Z |} |}.

Definition get (self : t) : PyVal := value (_last_reading self).

(** The assignment of line 246. *)
Definition store (self : t) (val : PyVal) (env : PutEnv) : t :=
  {| _proxy := _proxy self; _name := _name self;
     _last_reading :=
       {| value := val; timestamp := now env; alarm_severity := 0%Z |} |}.

Definition put (self : t) (value : PyVal) (wait : bool)
    (timeout : option Q) (env : PutEnv) (fuel : nat) : Outcome t :=
  if wait then
    Returns (val <- sync_call env ;;; Ok (store self val env)) 0
  else
    let val := VNone in
    match asynch_call env with
    | Raise e => Returns (Raise e) 0
    | Ok rid =>
        if truthy_timeout timeout then
          match poll (reply_attempt env rid) (sleep env) fuel 0 with
          | Returns (Ok val) n => Returns (Ok (store self val env)) n
          | Returns (Raise e) n => Returns (Raise e) n
          | Running n => Running n
          end
        else Returns (Ok (store self val env)) 0
    end.

Definition get_reading (self : t) : Reading := _last_reading self.

End CommandProxy.

(** ** Resource resolver (lines 331-341) *)

(** [full_trl.rsplit('/', 1)]: the text before and after the last slash,
    if there is one. *)
Fixpoint rsplit_slash (s : string) : option (string * string) :=
  match s with
  | EmptyString => None
  | String c s' =>
      match rsplit_slash s' with
      | Some (d, m) => Some (String c d, m)
      | None => if Ascii.eqb c "/"%char then Some (EmptyString, s') else None
      end
  end.

(** The two proxy classes behind the [TangoProxy] interface. *)
Inductive TangoProxy : Type :=
| Attribute (p : AttributeProxy.t)
| Command (p : CommandProxy.t).

(** What [proxies[trl]] can hold: [None] or a device handle before the
    connection, the endpoint proxy after it. *)
Inductive Slot : Type :=
| Absent
| Handle (d : DeviceProxy)
| Endpoint (p : TangoProxy).

Definition class_name (p : TangoProxy) : string :=
  match p with
  | Attribute _ => "AttributeProxy"
  | Command _ => "CommandProxy"
  end.

(** The call [NotImplemented(msg)]: the constant [NotImplemented] is not a
    class and cannot be called. *)
Definition call_NotImplemented (msg : string) : Result PyExn :=
  Raise (TypeError "'NotImplementedType' object is not callable").

(** [raise e]: the operand is evaluated, then raised. *)
Definition raise {A : Type} (operand : Result PyExn) : Result A :=
  match operand with
  | Ok e => Raise e
  | Raise e => Raise e
  end.

(** [open_device] is the outcome of [await DeviceProxy(device_trl)]. *)
Definition get_tango_trl (full_trl : string) (device_proxy : Slot)
    (open_device : string -> Result DeviceProxy) : Result TangoProxy :=
  match rsplit_slash full_trl with
  | None =>
      Raise (ValueError "not enough values to unpack (expected 2, got 1)")
  | Some (device_trl, trl_name) =>
      device_proxy <-
        match device_proxy with
        | Absent => open_device device_trl
        | Handle d => Ok d
        | Endpoint p =>
            Raise (AttributeError ("'" +:+ class_name p +:+
                     "' object has no attribute 'get_attribute_list'"))
        end ;;;
      if bool_decide (trl_name ∈ get_attribute_list device_proxy) then
        Ok (Attribute (AttributeProxy.__init__ device_proxy trl_name))
      else if bool_decide (trl_name ∈ get_command_list device_proxy) then
        Ok (Command (CommandProxy.__init__ device_proxy trl_name))
      else if bool_decide (trl_name ∈ get_pipe_list device_proxy) then
        raise (call_NotImplemented "Pipes are not supported")
      else
        Raise (RuntimeError (trl_name +:+ " cannot be found in "
                 +:+ name device_proxy))
  end.

(** ** Dispatch through the [TangoProxy] interface *)

Definition support_events (p : TangoProxy) : bool :=
  match p with
  | Attribute _ => AttributeProxy.support_events
  | Command _ => CommandProxy.support_events
  end.

(** The command proxy inherits the base-class stubs, which return [None]. *)
Definition has_subscription (p : TangoProxy) : bool :=
  match p with
  | Attribute a => AttributeProxy.has_subscription a
  | Command _ => false
  end.

Definition lift_effect (e : Effect AttributeProxy.t) : Effect TangoProxy :=
  {| after := Attribute (after e); calls := calls e; result := result e |}.

Definition subscribe_callback (p : TangoProxy) (callback : option Callback)
    (subscribed : Result Z) : Effect TangoProxy :=
  match p with
  | Attribute a =>
      lift_effect (AttributeProxy.subscribe_callback a callback subscribed)
  | Command _ => {| after := p; calls := []; result := Ok tt |}
  end.

Definition unsubscribe_callback (p : TangoProxy) (released : Result unit)
  : Effect TangoProxy :=
  match p with
  | Attribute a => lift_effect (AttributeProxy.unsubscribe_callback a released)
  | Command _ => {| after := p; calls := []; result := Ok tt |}
  end.

(** [put] through the interface: the proxy afterwards. *)
Definition proxy_put (p : TangoProxy) (value : PyVal) (wait : bool)
    (timeout : option Q) (env : PutEnv) (fuel : nat) : Outcome TangoProxy :=
  match p with
  | Attribute a =>
      match AttributeProxy.put a value wait timeout env fuel with
      | Returns (Ok _) n => Returns (Ok p) n
      | Returns (Raise e) n => Returns (Raise e) n
      | Running n => Running n
      end
  | Command c =>
      match CommandProxy.put c value wait timeout env fuel with
      | Returns (Ok c') n => Returns (Ok (Command c')) n
      | Returns (Raise e) n => Returns (Raise e) n
      | Running n => Running n
      end
  end.

(** [read_attribute] is the outcome of the device read, should it be
    made. *)
Definition proxy_get (p : TangoProxy) (read_attribute : Result DeviceAttribute)
  : Result PyVal :=
  match p with
  | Attribute a => AttributeProxy.get a read_attribute
  | Command c => Ok (CommandProxy.get c)
  end.

(** The command proxy has no [get_w_value] of its own: the base-class
    stub returns [None]. *)
Definition proxy_get_w_value (p : TangoProxy)
    (read_attribute : Result DeviceAttribute) : Result PyVal :=
  match p with
  | Attribute a => AttributeProxy.get_w_value a read_attribute
  | Command _ => Ok VNone
  end.

Definition proxy_get_reading (p : TangoProxy)
    (read_attribute : Result DeviceAttribute) : Result Reading :=
  match p with
  | Attribute a => AttributeProxy.get_reading a read_attribute
  | Command c => Ok (CommandProxy.get_reading c)
  end.

(** [d[k] = v] on an insertion-ordered dict. *)
Fixpoint dict_set {V : Type} (k : string) (v : V) (d : list (string * V))
  : list (string * V) :=
  match d with
  | [] => [(k, v)]
  | (k', v') :: rest =>
      if bool_decide (k = k') then (k, v) :: rest
      else (k', v') :: dict_set k v rest
  end.

(** [except Exception] lets a cancellation through. *)
Definition is_Exception (e : PyExn) : bool :=
  match e with
  | CancelledError => false
  | _ => true
  end.

(** ** Transport (lines 345-414) *)
Module TangoTransport.

Record t : Type := {
  datatype : option Datatype;
  read_trl : string;
  write_trl : string;
  proxies : gmap string Slot;
  trl_configs : list (string * Config);
  source : string;
  descriptor : option Descriptor
}.

Definition __init__ (datatype : option Datatype) (read_trl write_trl : string)
    (device_proxy : option DeviceProxy) : t :=
  let slot := match device_proxy with
              | Some d => Handle d
              | None => Absent
              end in
  {| datatype := datatype; read_trl := read_trl; write_trl := write_trl;
     proxies := <[write_trl := slot]> (<[read_trl := slot]> ∅);
     trl_configs := []; source := read_trl; descriptor := None |}.

Definition set_proxy (self : t) (trl : string) (p : TangoProxy) : t :=
  {| datatype := datatype self; read_trl := read_trl self;
     write_trl := write_trl self;
     proxies := <[trl := Endpoint p]> (proxies self);
     trl_configs := trl_configs self; source := source self;
     descriptor := descriptor self |}.

Definition set_config (self : t) (trl : string) (c : Config) : t :=
  {| datatype := datatype self; read_trl := read_trl self;
     write_trl := write_trl self; proxies := proxies self;
     trl_configs := dict_set trl c (trl_configs self);
     source := source self; descriptor := descriptor self |}.

Definition set_descriptor (self : t) (d : Descriptor) : t :=
  {| datatype := datatype self; read_trl := read_trl self;
     write_trl := write_trl self; proxies := proxies self;
     trl_configs := trl_configs self; source := source self;
     descriptor := Some d |}.

(** Outcomes of the awaits of the connect step. *)
Record ConnectEnv : Type := {
  open_device : string -> Result DeviceProxy; (* await DeviceProxy(device_trl) *)
  get_config : TangoProxy -> Result Config    (* await proxy.get_config() *)
}.

(** The [try] block of lines 363-364: [self] as the block leaves it, and
    how it ended. *)
Definition connect_body (self : t) (trl : string) (env : ConnectEnv)
  : t * Result unit :=
  match proxies self !! trl with
  | None => (self, Raise (KeyError trl))
  | Some slot =>
      match get_tango_trl trl slot (open_device env) with
      | Raise e => (self, Raise e)
      | Ok p =>
          let self1 := set_proxy self trl p in
          match get_config env p with
          | Raise e => (self1, Raise e)
          | Ok c => (set_config self1 trl c, Ok tt)
          end
      end
  end.

(** [_connect_and_store_config], lines 361-366. *)
Definition _connect_and_store_config (self : t) (trl : string)
    (env : ConnectEnv) : t * Result unit :=
  let r := connect_body self trl env in
  match r.2 with
  | Raise CancelledError => (r.1, Raise (NotConnected (source self)))
  | _ => r
  end.

Section Connect.

(** [wait_for_connection] of [ophyd_async.core] runs the named
    coroutines concurrently; it is not among the sources and is kept
    abstract. *)
Variable wait_for_connection :
  list (string * (t -> t * Result unit)) -> t -> t * Result unit.
Variable U : TangoUtils.

(** [connect], lines 369-379. *)
Definition connect (self : t) (env : ConnectEnv) : t * Result unit :=
  let r :=
    if bool_decide (read_trl self <> write_trl self) then
      wait_for_connection
        [("read_trl",
          fun s => _connect_and_store_config s (read_trl self) env);
         ("write_trl",
          fun s => _connect_and_store_config s (write_trl self) env)]
        self
    else _connect_and_store_config self (read_trl self) env in
  match r.2 with
  | Raise e => (r.1, Raise e)
  | Ok _ =>
      match get_trl_descriptor U (datatype r.1) (read_trl r.1)
              (trl_configs r.1) with
      | Ok d => (set_descriptor r.1 d, Ok tt)
      | Raise e => (r.1, Raise e)
      end
  end.

End Connect.

Definition failed (self : t) (e : PyExn) : Effect t :=
  {| after := self; calls := []; result := Raise e |}.

(** [set_callback], lines 402-414.  [subscribed] and [released] are the
    outcomes of the device calls, should they be made. *)
Definition set_callback (self : t) (callback : option Callback)
    (subscribed : Result Z) (released : Result unit) : Effect t :=
  match proxies self !! read_trl self with
  | None => failed self (KeyError (read_trl self))
  | Some (Endpoint p) =>
      if negb (support_events p) then
        failed self
          (AssertionError (source self +:+ " does not support events"))
      else
        match callback with
        | Some cb =>
            if has_subscription p then
              failed self
                (AssertionError
                   "Cannot set a callback when one is already set")
            else
              let e := subscribe_callback p (Some cb) subscribed in
              {| after := set_proxy self (read_trl self) (after e);
                 calls := calls e;
                 result :=
                   match result e with
                   | Ok _ => Ok tt
                   | Raise err =>
                       if is_Exception err then
                         Raise (RuntimeError
                                  ("Cannot set event for "
                                     +:+ read_trl self +:+ ". "
                                     +:+ "This signal should be used only as non-cached!"))
                       else Raise err
                   end |}
        | None =>
            let e := unsubscribe_callback p released in
            {| after := set_proxy self (read_trl self) (after e);
               calls := calls e; result := result e |}
        end
  | Some _ =>
      failed self
        (AttributeError "object has no attribute 'support_events'")
  end.

(** A slot that holds no endpoint proxy has none of its methods. *)
Definition no_method (method : string) : PyExn :=
  AttributeError ("object has no attribute '" +:+ method +:+ "'").

(** [put], lines 382-383: the write-side proxy's [put]. *)
Definition put (self : t) (write_value : PyVal) (wait : bool)
    (timeout : option Q) (env : PutEnv) (fuel : nat) : Outcome t :=
  match proxies self !! write_trl self with
  | None => Returns (Raise (KeyError (write_trl self))) 0
  | Some (Endpoint p) =>
      match proxy_put p write_value wait timeout env fuel with
      | Returns (Ok p') n => Returns (Ok (set_proxy self (write_trl self) p')) n
      | Returns (Raise e) n => Returns (Raise e) n
      | Running n => Running n
      end
  | Some _ => Returns (Raise (no_method "put")) 0
  end.

(** [get_descriptor], lines 386-387; [None] is the empty dict of
    [__init__]. *)
Definition get_descriptor (self : t) : option Descriptor := descriptor self.

(** [get_reading], lines 390-391: the read-side proxy. *)
Definition get_reading (self : t) (read_attribute : Result DeviceAttribute)
  : Result Reading :=
  match proxies self !! read_trl self with
  | None => Raise (KeyError (read_trl self))
  | Some (Endpoint p) => proxy_get_reading p read_attribute
  | Some _ => Raise (no_method "get_reading")
  end.

(** [get_value], lines 394-395: the write-side proxy. *)
Definition get_value (self : t) (read_attribute : Result DeviceAttribute)
  : Result PyVal :=
  match proxies self !! write_trl self with
  | None => Raise (KeyError (write_trl self))
  | Some (Endpoint p) => proxy_get p read_attribute
  | Some _ => Raise (no_method "get")
  end.

(** [get_w_value], lines 398-399: the write-side proxy. *)
Definition get_w_value (self : t) (read_attribute : Result DeviceAttribute)
  : Result PyVal :=
  match proxies self !! write_trl self with
  | None => Raise (KeyError (write_trl self))
  | Some (Endpoint p) => proxy_get_w_value p read_attribute
  | Some _ => Raise (no_method "get_w_value")
  end.

End TangoTransport.

(** * Properties *)

(** ** Type mapper: properties *)

(** Array-ness is whatever [is_array] says, whichever branch answers. *)
Lemma get_pyton_type_array (U : TangoUtils) (t : CmdArgType)
    (a : bool) (k : PyType) (d : string) :
  get_pyton_type U t = Ok (a, k, d) -> a = is_array U t.
Proof.
  unfold get_pyton_type.
  repeat (match goal with
          | |- context [if ?c then _ else _] => destruct c
          end; try congruence).
Qed.

(** The description is one of the three scalar dtype names. *)
Lemma get_pyton_type_descr (U : TangoUtils) (t : CmdArgType)
    (a : bool) (k : PyType) (d : string) :
  get_pyton_type U t = Ok (a, k, d) ->
  d = "integer" \/ d = "number" \/ d = "string".
Proof.
  unfold get_pyton_type.
  repeat (match goal with
          | |- context [if ?c then _ else _] => destruct c
          end; try (intros [= <- <- <-]; tauto); try discriminate).
Qed.

(** The table of the repository's [test_get_python_type]. *)
Definition tested_types : list (CmdArgType * (bool * PyType * string)) :=
  [(DevVoid, (false, py_None, "string"));
   (DevBoolean, (false, py_bool, "integer"));
   (DevShort, (false, py_int, "integer"));
   (DevLong, (false, py_int, "integer"));
   (DevFloat, (false, py_float, "number"));
   (DevDouble, (false, py_float, "number"));
   (DevUShort, (false, py_int, "integer"));
   (DevULong, (false, py_int, "integer"));
   (DevString, (false, py_str, "string"));
   (DevVarCharArray, (true, py_list_str, "string"));
   (DevVarShortArray, (true, py_int, "integer"));
   (DevVarLongArray, (true, py_int, "integer"));
   (DevVarFloatArray, (true, py_float, "number"));
   (DevVarDoubleArray, (true, py_float, "number"));
   (DevVarUShortArray, (true, py_int, "integer"));
   (DevVarULongArray, (true, py_int, "integer"));
   (DevVarStringArray, (true, py_str, "string"));
   (DevState, (false, py_DevState, "string"));
   (ConstDevString, (false, py_str, "string"));
   (DevVarBooleanArray, (true, py_bool, "integer"));
   (DevUChar, (false, py_int, "integer"));
   (DevLong64, (false, py_int, "integer"));
   (DevULong64, (false, py_int, "integer"));
   (DevVarLong64Array, (true, py_int, "integer"));
   (DevVarULong64Array, (true, py_int, "integer"));
   (DevEncoded, (false, py_list_str, "string"));
   (DevEnum, (false, py_Enum, "string"))].

Example get_pyton_type_tested :
  Forall (fun te => get_pyton_type PyTango.utils te.1 = Ok te.2) tested_types.
Proof. repeat constructor. Qed.

Example get_pyton_type_unsupported :
  Forall (fun t => get_pyton_type PyTango.utils t
                   = Raise (TypeError "Unknown TangoType"))
    [DevVarLongStringArray; DevVarDoubleStringArray; DevPipeBlob;
     DevVarStateArray].
Proof. repeat constructor. Qed.

(** C3. For every remote type tag the type mapper, run over PyTango's
    type tables, returns exactly the documented triple: integer families
    give (int, "integer"), float families (float, "number"), boolean
    (bool, "integer"), string (str, "string"), binary or encoded
    (list of str, "string"), enum, device state and void the description
    "string", with array-ness taken from its own column; every tag outside
    the table fails with the unsupported-type error. *)
Theorem get_pyton_type_matches_table (t : CmdArgType) :
  get_pyton_type PyTango.utils t = MapTypeSpec.mapType t.
Proof. destruct t; reflexivity. Qed.

(** ** Descriptor builder: properties *)

(** With one config the unique triple is that config's triple. *)
Lemma get_unique_singleton (k : string) (v : TypeId) (types : string) :
  get_unique [(k, v)] types = Ok v.
Proof. reflexivity. Qed.

Lemma typeids_singleton (U : TangoUtils) (k : string) (c : Config) (t : TypeId) :
  typeid_of U c = Ok t -> typeids U [(k, c)] = Ok [(k, t)].
Proof. intros H. simpl. rewrite H. reflexivity. Qed.

(** The loop stops at the first config that raises. *)
Lemma typeids_raise_at (U : TangoUtils) (pre post : list (string * Config))
    (k : string) (c : Config) (e : PyExn) :
  Forall (fun kc => is_ok (typeid_of U kc.2) = true) pre ->
  typeid_of U c = Raise e ->
  typeids U (pre ++ (k, c) :: post) = Raise e.
Proof.
  intros Hpre Hc. induction Hpre as [|[k0 c0] pre H0 _ IH]; simpl.
  - rewrite Hc. reflexivity.
  - simpl in H0. destruct (typeid_of U c0); [|discriminate].
    simpl. rewrite IH. reflexivity.
Qed.

(** The two attributes of the repository's test device
    ([test_get_trl_descriptor]). *)
Definition justvalue_config : AttributeInfoEx :=
  {| data_type := DevLong; data_format := SCALAR;
     max_dim_x := 1; max_dim_y := 0; enum_labels := [] |}.

Definition array_config : AttributeInfoEx :=
  {| data_type := DevDouble; data_format := IMAGE;
     max_dim_x := 3; max_dim_y := 2; enum_labels := [] |}.

Example justvalue_descriptor :
  get_trl_descriptor PyTango.utils None "test/device/1/justvalue"
    [("justvalue", AttrConfig justvalue_config)]
  = Ok {| source := "test/device/1/justvalue"; dtype := "integer";
          shape := []; choices := None |}.
Proof. reflexivity. Qed.

Example array_descriptor :
  get_trl_descriptor PyTango.utils None "test/device/1/array"
    [("array", AttrConfig array_config)]
  = Ok {| source := "test/device/1/array"; dtype := "array";
          shape := [Finite 2; Finite 3]; choices := None |}.
Proof. reflexivity. Qed.

(** C4. For one attribute config whose type tag the mapper supports, and
    no expected type, the builder returns a descriptor for the given
    locator whose shape is [] for scalar format, [max_x] for spectrum
    format and [max_y, max_x] (rows first) for image format; array formats
    have dtype "array", and a scalar attribute of integer kind has dtype
    "integer". *)
Theorem attribute_descriptor_shape (U : TangoUtils) (name src : string)
    (cfg : AttributeInfoEx) (a : bool) (k : PyType) (d : string) :
  get_pyton_type U (data_type cfg) = Ok (a, k, d) ->
  exists desc : Descriptor,
    get_trl_descriptor U None src [(name, AttrConfig cfg)] = Ok desc
    /\ source desc = src
    /\ (data_format cfg = SCALAR -> shape desc = [])
    /\ (data_format cfg = SPECTRUM ->
        shape desc = [Finite (max_dim_x cfg)] /\ dtype desc = "array")
    /\ (data_format cfg = IMAGE ->
        shape desc = [Finite (max_dim_y cfg); Finite (max_dim_x cfg)]
        /\ dtype desc = "array")
    /\ (data_format cfg = SCALAR -> k = py_int ->
        dtype desc = "integer" /\ shape desc = []).
Proof.
  intros Hty.
  assert (Hd : k = py_int -> d = "integer").
  { revert Hty. unfold get_pyton_type.
    repeat (match goal with
            | |- context [if ?c then _ else _] => destruct c
            end; try (intros [= <- <- <-]; congruence); try discriminate). }
  unfold get_trl_descriptor. simpl. rewrite Hty. simpl.
  destruct (data_format cfg), k; cbn;
    eexists; (split; [reflexivity|]); cbn;
    repeat split; try discriminate; auto.
Qed.

Lemma attribute_descriptor_shape_witness :
  exists desc : Descriptor,
    get_trl_descriptor PyTango.utils None "test/device/1/array"
      [("array", AttrConfig array_config)] = Ok desc
    /\ source desc = "test/device/1/array"
    /\ (data_format array_config = SCALAR -> shape desc = [])
    /\ (data_format array_config = SPECTRUM ->
        shape desc = [Finite (max_dim_x array_config)]
        /\ dtype desc = "array")
    /\ (data_format array_config = IMAGE ->
        shape desc = [Finite (max_dim_y array_config);
                      Finite (max_dim_x array_config)]
        /\ dtype desc = "array")
    /\ (data_format array_config = SCALAR -> py_float = py_int ->
        dtype desc = "integer" /\ shape desc = []).
Proof.
  apply (attribute_descriptor_shape PyTango.utils "array"
           "test/device/1/array" array_config false py_float "number").
  reflexivity.
Defined.

(** A command that takes nothing and returns an integer: its input and
    output types differ, and the builder accepts it. *)
Definition void_in_command : CommandInfo :=
  {| in_type := DevVoid; out_type := DevLong |}.

Definition asymmetric_command : CommandInfo :=
  {| in_type := DevLong; out_type := DevDouble |}.

Lemma typeid_of_mismatch (U : TangoUtils) (cfg : CommandInfo) :
  in_type cfg <> DevVoid -> out_type cfg <> DevVoid ->
  in_type cfg <> out_type cfg ->
  typeid_of U (CmdConfig cfg) = Raise (RuntimeError mismatch_msg).
Proof.
  intros Hi Ho Hne. unfold typeid_of.
  rewrite !bool_decide_eq_true_2 by assumption. reflexivity.
Qed.

(** The guard of line 278 lets a void side through: the type is then read
    from the other side. *)
Lemma typeid_of_void_in (U : TangoUtils) (cfg : CommandInfo) :
  in_type cfg = DevVoid ->
  typeid_of U (CmdConfig cfg)
  = (r <- get_pyton_type U (out_type cfg) ;;;
     Ok (if r.1.1 then SPECTRUM else SCALAR, r.1.2, r.2)).
Proof.
  intros Hi. unfold typeid_of. rewrite Hi.
  rewrite (bool_decide_eq_false_2 (DevVoid <> DevVoid)) by (intros H; apply H; reflexivity).
  reflexivity.
Qed.

(** C5, as stated, fails: input and output types differ, no error. *)
Lemma void_in_command_descriptor :
  in_type void_in_command <> out_type void_in_command
  /\ get_trl_descriptor PyTango.utils None "test/device/1/count"
       [("count", CmdConfig void_in_command)]
     = Ok {| source := "test/device/1/count"; dtype := "integer";
             shape := []; choices := None |}.
Proof. split; [discriminate | reflexivity]. Qed.

(** C5 (amended). A command config whose input and output remote types
    are both non-void and differ makes the builder fail with the mismatch
    error, whatever the expected type, provided the configs before it in
    the dict are themselves accepted by the loop. *)
Theorem command_io_mismatch_fails (U : TangoUtils) (datatype : option Datatype)
    (src name : string) (pre post : list (string * Config))
    (cfg : CommandInfo) :
  in_type cfg <> DevVoid -> out_type cfg <> DevVoid ->
  in_type cfg <> out_type cfg ->
  Forall (fun kc => is_ok (typeid_of U kc.2) = true) pre ->
  get_trl_descriptor U datatype src (pre ++ (name, CmdConfig cfg) :: post)
  = Raise (RuntimeError mismatch_msg).
Proof.
  intros Hi Ho Hne Hpre. unfold get_trl_descriptor.
  rewrite (typeids_raise_at U pre post name (CmdConfig cfg)
             (RuntimeError mismatch_msg) Hpre
             (typeid_of_mismatch U cfg Hi Ho Hne)).
  reflexivity.
Qed.

Lemma command_io_mismatch_fails_witness :
  get_trl_descriptor PyTango.utils None "test/device/1/justvalue"
    ([("test/device/1/justvalue", AttrConfig justvalue_config)]
       ++ ("test/device/1/convert", CmdConfig asymmetric_command) :: [])
  = Raise (RuntimeError mismatch_msg).
Proof.
  apply (command_io_mismatch_fails PyTango.utils None
           "test/device/1/justvalue" "test/device/1/convert"
           [("test/device/1/justvalue", AttrConfig justvalue_config)] []
           asymmetric_command).
  - discriminate.
  - discriminate.
  - discriminate.
  - repeat constructor.
Defined.

(** ** Reply polling: properties *)

Lemma load_name_dev :
  load_name "dev" = Raise (NameError "name 'dev' is not defined").
Proof. reflexivity. Qed.

(** Every attempt of the loop as written raises, whatever the library
    would have answered. *)
Lemma reply_attempt_raises (env : PutEnv) (rid : Z) (n : nat) :
  reply_attempt env rid n = Raise (NameError "name 'dev' is not defined").
Proof. unfold reply_attempt. rewrite load_name_dev. reflexivity. Qed.

(** While the attempts raise and the sleeps return, the loop goes on, one
    sleep per pass. *)
Lemma poll_keeps_running (attempt : nat -> Result PyVal)
    (sleep : nat -> Result unit) :
  (forall n, is_ok (attempt n) = false) ->
  (forall n, sleep n = Ok tt) ->
  forall fuel n, poll attempt sleep fuel n = Running (fuel + n).
Proof.
  intros Ha Hs fuel. induction fuel as [|fuel IH]; intros n; simpl.
  - reflexivity.
  - specialize (Ha n). destruct (attempt n); [discriminate|].
    rewrite Hs, IH. f_equal. lia.
Qed.

(** The loop leaves at the first attempt that succeeds, given fuel to
    reach it.  The timeout is no argument of the loop. *)
Lemma poll_first_success (attempt : nat -> Result PyVal)
    (sleep : nat -> Result unit) (v : PyVal) (k : nat) :
  (forall n, n < k -> is_ok (attempt n) = false) ->
  (forall n, sleep n = Ok tt) ->
  attempt k = Ok v ->
  forall fuel, k < fuel -> poll attempt sleep fuel 0 = Returns (Ok v) k.
Proof.
  intros Hbefore Hs Hk.
  assert (G : forall j fuel n, n + j = k -> j < fuel ->
                poll attempt sleep fuel n = Returns (Ok v) k).
  { induction j as [|j IH]; intros fuel n Hn Hf.
    - replace n with k by lia. destruct fuel; [lia|]. simpl.
      rewrite Hk. reflexivity.
    - destruct fuel; [lia|]. simpl.
      assert (Hlt : n < k) by lia. specialize (Hbefore n Hlt).
      destruct (attempt n); [discriminate|].
      rewrite Hs. apply IH; lia. }
  intros fuel Hf. apply (G k fuel 0%nat); lia.
Qed.

Lemma truthy_timeout_pos (p q : positive) :
  truthy_timeout (Some (Z.pos p # q)%Q) = true.
Proof. reflexivity. Qed.

(** C1 (the code departs from it). With [wait] false and a non-zero
    timeout, on either proxy, once the asynchronous call has returned its
    request id the polling loop is still running after any number of
    passes, having slept once per pass: no reply is ever collected and no
    timeout failure is raised, however far the time slept exceeds the
    timeout. *)
Theorem put_async_timeout_never_returns (a : AttributeProxy.t)
    (c : CommandProxy.t) (v : PyVal) (p q : positive) (rid : Z)
    (sync : Result PyVal) (reply : Z -> nat -> Result PyVal) (now : Q)
    (fuel : nat) :
  let env := {| sync_call := sync; asynch_call := Ok rid; reply := reply;
                sleep := fun _ => Ok tt; now := now |} in
  AttributeProxy.put a v false (Some (Z.pos p # q)%Q) env fuel = Running fuel
  /\ CommandProxy.put c v false (Some (Z.pos p # q)%Q) env fuel = Running fuel.
Proof.
  intros env.
  assert (H : poll (reply_attempt env rid) (sleep env) fuel 0 = Running fuel).
  { rewrite poll_keeps_running.
    - f_equal. lia.
    - intros n. rewrite reply_attempt_raises. reflexivity.
    - reflexivity. }
  unfold AttributeProxy.put, CommandProxy.put.
  rewrite truthy_timeout_pos. cbn [asynch_call env]. rewrite H. split; reflexivity.
Qed.

(** A timeout of one millisecond, a reply that is ready at once: after
    two hundred sleeps (two milliseconds) the put has not returned. *)
Example put_overruns_timeout :
  AttributeProxy.put
    (AttributeProxy.__init__
       {| name := "test/device/1"; get_attribute_list := ["justvalue"];
          get_command_list := []; get_pipe_list := [] |} "justvalue")
    (VInt 10) false (Some (1 # 1000)%Q)
    {| sync_call := Ok VNone; asynch_call := Ok 1%Z;
       reply := fun _ _ => Ok VNone; sleep := fun _ => Ok tt; now := 0%Q |}
    200
  = Running 200
  /\ (1 # 1000 < slept_time 200)%Q.
Proof. split; reflexivity. Qed.

(** ** Resource resolver: properties *)

Lemma rsplit_slash_none (m : string) :
  "/"%char ∉ String.list_ascii_of_string m -> rsplit_slash m = None.
Proof.
  induction m as [|c m IH]; simpl; intros H; [reflexivity|].
  rewrite IH by (intros Hin; apply H; right; exact Hin).
  destruct (Ascii.eqb_spec c "/"%char) as [->|]; [|reflexivity].
  exfalso. apply H. left.
Qed.

Lemma rsplit_slash_cons (c : ascii) (s d m : string) :
  rsplit_slash s = Some (d, m) ->
  rsplit_slash (String c s) = Some (String c d, m).
Proof. intros H. cbn [rsplit_slash]. rewrite H. reflexivity. Qed.

Lemma rsplit_slash_last (m : string) :
  "/"%char ∉ String.list_ascii_of_string m ->
  rsplit_slash (String "/" m) = Some (EmptyString, m).
Proof.
  intros H. cbn [rsplit_slash]. rewrite (rsplit_slash_none m H). reflexivity.
Qed.

(** A locator [device/member] splits at its last slash. *)
Lemma rsplit_slash_app (d m : string) :
  "/"%char ∉ String.list_ascii_of_string m ->
  rsplit_slash (d +:+ "/" +:+ m) = Some (d, m).
Proof.
  intros H. induction d as [|c d IH].
  - apply rsplit_slash_last, H.
  - apply (rsplit_slash_cons c _ d m), IH.
Qed.

Section Resolve.

Variables (full_trl device_trl trl_name : string) (dp : DeviceProxy).
Variable open_device : string -> Result DeviceProxy.
Hypothesis Hsplit : rsplit_slash full_trl = Some (device_trl, trl_name).

Lemma resolve_attribute :
  trl_name ∈ get_attribute_list dp ->
  get_tango_trl full_trl (Handle dp) open_device
  = Ok (Attribute (AttributeProxy.__init__ dp trl_name)).
Proof.
  intros Ha. unfold get_tango_trl. rewrite Hsplit. simpl.
  rewrite bool_decide_eq_true_2 by assumption. reflexivity.
Qed.

Lemma resolve_command :
  trl_name ∉ get_attribute_list dp ->
  trl_name ∈ get_command_list dp ->
  get_tango_trl full_trl (Handle dp) open_device
  = Ok (Command (CommandProxy.__init__ dp trl_name)).
Proof.
  intros Ha Hc. unfold get_tango_trl. rewrite Hsplit. simpl.
  rewrite bool_decide_eq_false_2 by assumption.
  rewrite bool_decide_eq_true_2 by assumption. reflexivity.
Qed.

Lemma resolve_pipe :
  trl_name ∉ get_attribute_list dp ->
  trl_name ∉ get_command_list dp ->
  trl_name ∈ get_pipe_list dp ->
  get_tango_trl full_trl (Handle dp) open_device
  = Raise (TypeError "'NotImplementedType' object is not callable").
Proof.
  intros Ha Hc Hp. unfold get_tango_trl. rewrite Hsplit. simpl.
  rewrite !bool_decide_eq_false_2 by assumption.
  rewrite bool_decide_eq_true_2 by assumption. reflexivity.
Qed.

Lemma resolve_absent :
  trl_name ∉ get_attribute_list dp ->
  trl_name ∉ get_command_list dp ->
  trl_name ∉ get_pipe_list dp ->
  get_tango_trl full_trl (Handle dp) open_device
  = Raise (RuntimeError (trl_name +:+ " cannot be found in " +:+ name dp)).
Proof.
  intros Ha Hc Hp. unfold get_tango_trl. rewrite Hsplit. simpl.
  rewrite !bool_decide_eq_false_2 by assumption. reflexivity.
Qed.

End Resolve.

(** A device that serves one attribute, one command and one pipe. *)
Definition tg_test : DeviceProxy :=
  {| name := "sys/tg_test/1";
     get_attribute_list := ["double_scalar"; "State"; "Status"];
     get_command_list := ["SwitchStates"; "State"; "Status"];
     get_pipe_list := ["string_long_short_ro"] |}.

(** C6 (the code departs from it). A member that is only in the pipe list
    does not fail with the unsupported error the code names
    ("Pipes are not supported"): the resolver raises the TypeError of
    calling the constant NotImplemented. *)
Theorem resolve_pipe_member_type_error
    (open_device : string -> Result DeviceProxy) :
  get_tango_trl "sys/tg_test/1/string_long_short_ro" (Handle tg_test)
    open_device
  = Raise (TypeError "'NotImplementedType' object is not callable").
Proof. reflexivity. Qed.

Example resolve_tg_test_members (open_device : string -> Result DeviceProxy) :
  get_tango_trl "sys/tg_test/1/double_scalar" (Handle tg_test) open_device
  = Ok (Attribute (AttributeProxy.__init__ tg_test "double_scalar"))
  /\ get_tango_trl "sys/tg_test/1/State" (Handle tg_test) open_device
     = Ok (Attribute (AttributeProxy.__init__ tg_test "State"))
  /\ get_tango_trl "sys/tg_test/1/SwitchStates" (Handle tg_test) open_device
     = Ok (Command (CommandProxy.__init__ tg_test "SwitchStates"))
  /\ get_tango_trl "sys/tg_test/1/nonexistent" (Handle tg_test) open_device
     = Raise (RuntimeError "nonexistent cannot be found in sys/tg_test/1").
Proof. repeat split; reflexivity. Qed.

(** ** Command proxy: properties *)

Lemma command_get_is_cached (self : CommandProxy.t) :
  CommandProxy.get self = value (CommandProxy.get_reading self).
Proof. reflexivity. Qed.

(** C8. A fresh command proxy reads as value None; [get] returns the value
    of the cached reading; and a [put(x)] (synchronous, as by default)
    whose remote call returns [v] completes and leaves the cached reading
    equal to [v], the completion time and the valid quality, which is what
    [get_reading] and [get] then report. *)
Theorem command_put_caches_result (d : DeviceProxy) (n : string)
    (self : CommandProxy.t) (x v : PyVal) (timeout : option Q)
    (env : PutEnv) (fuel : nat) :
  sync_call env = Ok v ->
  value (CommandProxy.get_reading (CommandProxy.__init__ d n)) = VNone
  /\ CommandProxy.get self = value (CommandProxy._last_reading self)
  /\ exists self' : CommandProxy.t,
       CommandProxy.put self x true timeout env fuel = Returns (Ok self') 0
       /\ CommandProxy.get_reading self'
          = {| value := v; timestamp := now env;
               alarm_severity := ATTR_VALID |}
       /\ CommandProxy.get self' = v.
Proof.
  intros Hv. split; [reflexivity|]. split; [reflexivity|].
  exists (CommandProxy.store self v env).
  unfold CommandProxy.put. rewrite Hv. repeat split.
Qed.

Definition clear_proxy : CommandProxy.t :=
  CommandProxy.__init__ tg_test "SwitchStates".

Definition clear_env : PutEnv :=
  {| sync_call := Ok (VInt 42); asynch_call := Ok 7%Z;
     reply := fun _ _ => Ok (VInt 42); sleep := fun _ => Ok tt;
     now := (1700000000 # 1)%Q |}.

Lemma command_put_caches_result_witness :
  value (CommandProxy.get_reading (CommandProxy.__init__ tg_test "SwitchStates"))
  = VNone
  /\ CommandProxy.get clear_proxy
     = value (CommandProxy._last_reading clear_proxy)
  /\ exists self' : CommandProxy.t,
       CommandProxy.put clear_proxy VNone true None clear_env 0
       = Returns (Ok self') 0
       /\ CommandProxy.get_reading self'
          = {| value := VInt 42; timestamp := now clear_env;
               alarm_severity := ATTR_VALID |}
       /\ CommandProxy.get self' = VInt 42.
Proof.
  apply (command_put_caches_result tg_test "SwitchStates" clear_proxy VNone
           (VInt 42) None clear_env 0).
  reflexivity.
Defined.

(** C10. [put(value, wait=False)] without a timeout, once the asynchronous
    call has been issued, completes at once and overwrites the cached
    reading with value None, so that [get] and [get_reading] report None
    and not what the command returns. *)
Theorem command_put_nowait_caches_none (self : CommandProxy.t) (x : PyVal)
    (env : PutEnv) (rid : Z) (fuel : nat) :
  asynch_call env = Ok rid ->
  exists self' : CommandProxy.t,
    CommandProxy.put self x false None env fuel = Returns (Ok self') 0
    /\ CommandProxy.get_reading self'
       = {| value := VNone; timestamp := now env;
            alarm_severity := ATTR_VALID |}
    /\ CommandProxy.get self' = VNone.
Proof.
  intros Hrid. exists (CommandProxy.store self VNone env).
  unfold CommandProxy.put. rewrite Hrid. repeat split.
Qed.

Lemma command_put_nowait_caches_none_witness :
  exists self' : CommandProxy.t,
    CommandProxy.put clear_proxy VNone false None clear_env 0
    = Returns (Ok self') 0
    /\ CommandProxy.get_reading self'
       = {| value := VNone; timestamp := now clear_env;
            alarm_severity := ATTR_VALID |}
    /\ CommandProxy.get self' = VNone.
Proof.
  apply (command_put_nowait_caches_none clear_proxy VNone clear_env 7%Z 0).
  reflexivity.
Defined.

(** The same holds for a timeout of zero, which [if timeout:] takes for
    no timeout. *)
Lemma command_put_nowait_falsy_timeout (self : CommandProxy.t) (x : PyVal)
    (timeout : option Q) (env : PutEnv) (rid : Z) (fuel : nat) :
  asynch_call env = Ok rid ->
  truthy_timeout timeout = false ->
  CommandProxy.put self x false timeout env fuel
  = Returns (Ok (CommandProxy.store self VNone env)) 0.
Proof.
  intros Hrid Ht. unfold CommandProxy.put. rewrite Hrid, Ht. reflexivity.
Qed.

(** ** Attribute proxy: subscription properties *)

Lemma has_subscription_eid (a : AttributeProxy.t) :
  AttributeProxy.has_subscription a = true ->
  exists eid : Z, AttributeProxy._eid a = Some eid /\ eid <> 0%Z.
Proof.
  unfold AttributeProxy.has_subscription, truthy_eid.
  destruct (AttributeProxy._eid a) as [eid|]; [|discriminate].
  intros H. exists eid. split; [reflexivity|].
  intros ->. discriminate.
Qed.

(** C9. On an attribute proxy that holds a subscription handle,
    [subscribe_callback] stores the new callback, keeps the handle and
    makes no call to the device, so the proxy is still subscribed.
    [unsubscribe_callback], when the device accepts the release, clears
    the stored callback and leaves the proxy unsubscribed: a held handle
    is released with one call and dropped, and without a handle no call is
    made and the handle field is untouched. *)
Theorem attribute_subscription_swap_and_release (a : AttributeProxy.t)
    (cb : option Callback) (subscribed : Result Z) :
  (AttributeProxy.has_subscription a = true ->
   AttributeProxy.subscribe_callback a cb subscribed
   = {| after := {| AttributeProxy._proxy := AttributeProxy._proxy a;
                    AttributeProxy._name := AttributeProxy._name a;
                    AttributeProxy._event_callback := cb;
                    AttributeProxy._eid := AttributeProxy._eid a |};
        calls := []; result := Ok tt |}
   /\ AttributeProxy.has_subscription
        (after (AttributeProxy.subscribe_callback a cb subscribed)) = true)
  /\ (let e := AttributeProxy.unsubscribe_callback a (Ok tt) in
      result e = Ok tt
      /\ AttributeProxy._event_callback (after e) = None
      /\ AttributeProxy.has_subscription (after e) = false
      /\ (AttributeProxy.has_subscription a = true ->
          AttributeProxy._eid (after e) = None
          /\ exists eid : Z,
               AttributeProxy._eid a = Some eid
               /\ calls e = [unsubscribe_event eid])
      /\ (AttributeProxy.has_subscription a = false ->
          AttributeProxy._eid (after e) = AttributeProxy._eid a
          /\ calls e = [])).
Proof.
  split.
  - intros Hsub. unfold AttributeProxy.subscribe_callback.
    unfold AttributeProxy.has_subscription in Hsub. cbn.
    rewrite Hsub. cbn. split; [reflexivity|].
    unfold AttributeProxy.has_subscription. cbn. exact Hsub.
  - unfold AttributeProxy.unsubscribe_callback, AttributeProxy.has_subscription.
    destruct (AttributeProxy._eid a) as [eid|] eqn:He; cbn.
    + destruct (eid =? 0)%Z eqn:Hz; cbn; rewrite ?Hz;
        repeat split; try discriminate; eauto.
    + repeat split; discriminate.
Qed.

Definition subscribed_proxy : AttributeProxy.t :=
  {| AttributeProxy._proxy := tg_test;
     AttributeProxy._name := "double_scalar";
     AttributeProxy._event_callback := Some 1;
     AttributeProxy._eid := Some 5%Z |}.

Lemma attribute_subscription_swap_and_release_witness :
  AttributeProxy.has_subscription subscribed_proxy = true
  /\ AttributeProxy.subscribe_callback subscribed_proxy (Some 2) (Ok 6%Z)
     = {| after := {| AttributeProxy._proxy := tg_test;
                      AttributeProxy._name := "double_scalar";
                      AttributeProxy._event_callback := Some 2;
                      AttributeProxy._eid := Some 5%Z |};
          calls := []; result := Ok tt |}
  /\ AttributeProxy._eid
       (after (AttributeProxy.unsubscribe_callback subscribed_proxy (Ok tt)))
     = None.
Proof.
  destruct (attribute_subscription_swap_and_release subscribed_proxy
              (Some 2) (Ok 6%Z)) as [Hswap [_ [_ [_ [Hrel _]]]]].
  split; [reflexivity|]. split.
  - apply Hswap. reflexivity.
  - apply Hrel. reflexivity.
Defined.

(** ** Transport: connection *)

Lemma init_source (dt : option Datatype) (r w : string)
    (d : option DeviceProxy) :
  TangoTransport.source (TangoTransport.__init__ dt r w d) = r
  /\ TangoTransport.read_trl (TangoTransport.__init__ dt r w d) = r.
Proof. split; reflexivity. Qed.

(** A cancellation while the device is being opened ends the [try] block
    with the raw cancellation. *)
Lemma connect_body_cancelled_open (self : TangoTransport.t)
    (trl device_trl trl_name : string) (env : TangoTransport.ConnectEnv) :
  TangoTransport.proxies self !! trl = Some Absent ->
  rsplit_slash trl = Some (device_trl, trl_name) ->
  TangoTransport.open_device env device_trl = Raise CancelledError ->
  TangoTransport.connect_body self trl env = (self, Raise CancelledError).
Proof.
  intros Hslot Hsplit Hopen. unfold TangoTransport.connect_body.
  rewrite Hslot. unfold get_tango_trl. rewrite Hsplit, Hopen. reflexivity.
Qed.

(** A cancellation while the config is being fetched does the same; the
    proxy is already stored. *)
Lemma connect_body_cancelled_config (self : TangoTransport.t) (trl : string)
    (slot : Slot) (p : TangoProxy) (env : TangoTransport.ConnectEnv) :
  TangoTransport.proxies self !! trl = Some slot ->
  get_tango_trl trl slot (TangoTransport.open_device env) = Ok p ->
  TangoTransport.get_config env p = Raise CancelledError ->
  TangoTransport.connect_body self trl env
  = (TangoTransport.set_proxy self trl p, Raise CancelledError).
Proof.
  intros Hslot Hres Hcfg. unfold TangoTransport.connect_body.
  rewrite Hslot, Hres, Hcfg. reflexivity.
Qed.

(** C2. Whenever the body of the per-locator connect step ends with a
    cancellation, for the read or the write locator, the step raises
    NotConnected carrying the transport's source, which is the read-side
    locator; the step never ends with the raw cancellation; and when both
    locators are equal, [connect] raises that same NotConnected. *)
Theorem connect_step_cancellation (self : TangoTransport.t) (trl : string)
    (env : TangoTransport.ConnectEnv) :
  TangoTransport.source self = TangoTransport.read_trl self ->
  ((TangoTransport.connect_body self trl env).2 = Raise CancelledError ->
   (TangoTransport._connect_and_store_config self trl env).2
   = Raise (NotConnected (TangoTransport.read_trl self)))
  /\ (TangoTransport._connect_and_store_config self trl env).2
     <> Raise CancelledError
  /\ (forall wait_for_connection (U : TangoUtils),
        TangoTransport.read_trl self = TangoTransport.write_trl self ->
        (TangoTransport.connect_body self (TangoTransport.read_trl self) env).2
        = Raise CancelledError ->
        (TangoTransport.connect wait_for_connection U self env).2
        = Raise (NotConnected (TangoTransport.read_trl self))).
Proof.
  intros Hsrc.
  assert (Hstep : forall t0,
            (TangoTransport.connect_body self t0 env).2 = Raise CancelledError ->
            (TangoTransport._connect_and_store_config self t0 env).2
            = Raise (NotConnected (TangoTransport.read_trl self))).
  { intros t0 Hc. unfold TangoTransport._connect_and_store_config.
    rewrite Hc. cbn. rewrite Hsrc. reflexivity. }
  split; [apply Hstep|]. split.
  - unfold TangoTransport._connect_and_store_config.
    destruct (TangoTransport.connect_body self trl env) as [s r]; cbn.
    destruct r as [u|e]; cbn; [discriminate|].
    destruct e; cbn; discriminate.
  - intros wfc U Heq Hc. unfold TangoTransport.connect.
    rewrite bool_decide_eq_false_2 by (intros H; apply H; exact Heq).
    rewrite (Hstep _ Hc). reflexivity.
Qed.

Definition unconnected : TangoTransport.t :=
  TangoTransport.__init__ None "sys/tg_test/1/double_scalar"
    "sys/tg_test/1/double_scalar" None.

Definition cancelled_env : TangoTransport.ConnectEnv :=
  {| TangoTransport.open_device := fun _ => Raise CancelledError;
     TangoTransport.get_config := fun _ => Raise CancelledError |}.

Lemma connect_step_cancellation_witness :
  (TangoTransport._connect_and_store_config unconnected
     "sys/tg_test/1/double_scalar" cancelled_env).2
  = Raise (NotConnected "sys/tg_test/1/double_scalar")
  /\ (TangoTransport.connect (fun _ s => (s, Ok tt)) PyTango.utils
        unconnected cancelled_env).2
     = Raise (NotConnected "sys/tg_test/1/double_scalar").
Proof.
  destruct (connect_step_cancellation unconnected
              "sys/tg_test/1/double_scalar" cancelled_env eq_refl)
    as [Hstep [_ Hconn]].
  split.
  - apply Hstep. vm_compute. reflexivity.
  - apply Hconn; vm_compute; reflexivity.
Defined.

(** ** Transport: callbacks *)

(** C7. On a connected transport, [set_callback] with a callback fails,
    without touching the transport or calling the device, with the
    "does not support events" assertion when the read-side proxy does not
    support events and with the "already set" assertion when that proxy
    supports events and is subscribed; with no callback, on a proxy that
    supports events, it is the proxy's [unsubscribe_callback]. *)
Theorem set_callback_guards (self : TangoTransport.t) (p : TangoProxy)
    (cb : Callback) (subscribed : Result Z) (released : Result unit) :
  TangoTransport.proxies self !! TangoTransport.read_trl self
  = Some (Endpoint p) ->
  (support_events p = false ->
   TangoTransport.set_callback self (Some cb) subscribed released
   = {| after := self; calls := [];
        result := Raise (AssertionError
                           (TangoTransport.source self
                              +:+ " does not support events")) |})
  /\ (support_events p = true -> has_subscription p = true ->
      TangoTransport.set_callback self (Some cb) subscribed released
      = {| after := self; calls := [];
           result := Raise (AssertionError
                              "Cannot set a callback when one is already set") |})
  /\ (forall a : AttributeProxy.t, p = Attribute a ->
      let e := AttributeProxy.unsubscribe_callback a released in
      TangoTransport.set_callback self None subscribed released
      = {| after := TangoTransport.set_proxy self
                      (TangoTransport.read_trl self) (Attribute (after e));
           calls := calls e; result := result e |}).
Proof.
  intros Hp. unfold TangoTransport.set_callback. rewrite Hp.
  split; [|split].
  - intros Hs. rewrite Hs. reflexivity.
  - intros Hs Hsub. rewrite Hs, Hsub. reflexivity.
  - intros a ->. reflexivity.
Qed.

Definition command_transport : TangoTransport.t :=
  TangoTransport.set_proxy
    (TangoTransport.__init__ None "sys/tg_test/1/SwitchStates"
       "sys/tg_test/1/SwitchStates" (Some tg_test))
    "sys/tg_test/1/SwitchStates" (Command clear_proxy).

Definition subscribed_transport : TangoTransport.t :=
  TangoTransport.set_proxy
    (TangoTransport.__init__ None "sys/tg_test/1/double_scalar"
       "sys/tg_test/1/double_scalar" (Some tg_test))
    "sys/tg_test/1/double_scalar" (Attribute subscribed_proxy).

Lemma set_callback_guards_witness :
  TangoTransport.set_callback command_transport (Some 3) (Ok 9%Z) (Ok tt)
  = {| after := command_transport; calls := [];
       result := Raise (AssertionError
                          "sys/tg_test/1/SwitchStates does not support events") |}
  /\ TangoTransport.set_callback subscribed_transport (Some 3) (Ok 9%Z) (Ok tt)
     = {| after := subscribed_transport; calls := [];
          result := Raise (AssertionError
                             "Cannot set a callback when one is already set") |}
  /\ calls (TangoTransport.set_callback subscribed_transport None
              (Ok 9%Z) (Ok tt))
     = [unsubscribe_event 5].
Proof.
  split; [|split].
  - apply (set_callback_guards command_transport (Command clear_proxy) 3
             (Ok 9%Z) (Ok tt)); reflexivity.
  - apply (set_callback_guards subscribed_transport
             (Attribute subscribed_proxy) 3 (Ok 9%Z) (Ok tt)); reflexivity.
  - destruct (set_callback_guards subscribed_transport
                (Attribute subscribed_proxy) 3 (Ok 9%Z) (Ok tt) eq_refl)
      as [_ [_ Hnone]].
    rewrite (Hnone subscribed_proxy eq_refl). reflexivity.
Defined.

(** * Further properties *)

(** ** Resource resolver *)

Lemma rsplit_slash_some_inv (s d m : string) :
  rsplit_slash s = Some (d, m) ->
  s = d +:+ "/" +:+ m /\ "/"%char ∉ String.list_ascii_of_string m.
Proof.
  revert d m. induction s as [|c s IH]; intros d m; cbn [rsplit_slash].
  - discriminate.
  - destruct (rsplit_slash s) as [[d0 m0]|] eqn:Hs.
    + intros [= <- <-]. destruct (IH d0 m0 eq_refl) as [-> Hm].
      split; [reflexivity | exact Hm].
    + destruct (Ascii.eqb_spec c "/"%char) as [->|Hc]; [|discriminate].
      intros [= <- <-]. split; [reflexivity|].
      clear IH. induction s as [|c s IH]; cbn.
      * apply not_elem_of_nil.
      * cbn [rsplit_slash] in Hs.
        destruct (rsplit_slash s) as [[d0 m0]|] eqn:Hs'; [discriminate|].
        destruct (Ascii.eqb_spec c "/"%char) as [->|Hc]; [discriminate|].
        intros Hin. apply elem_of_cons in Hin as [Heq|Hin].
        -- apply Hc. symmetry. exact Heq.
        -- exact (IH eq_refl Hin).
Qed.

(** X1. A locator without a slash cannot be unpacked into device and
    member: the resolver raises ValueError, whatever the slot holds, and
    before any device is opened. *)
Theorem resolve_without_slash (full_trl : string) (slot : Slot)
    (open_device : string -> Result DeviceProxy) :
  "/"%char ∉ String.list_ascii_of_string full_trl ->
  get_tango_trl full_trl slot open_device
  = Raise (ValueError "not enough values to unpack (expected 2, got 1)").
Proof.
  intros H. unfold get_tango_trl. rewrite (rsplit_slash_none _ H). reflexivity.
Qed.

Lemma resolve_without_slash_witness :
  get_tango_trl "justvalue" Absent (fun _ => Ok tg_test)
  = Raise (ValueError "not enough values to unpack (expected 2, got 1)").
Proof.
  apply (resolve_without_slash "justvalue" Absent (fun _ => Ok tg_test)).
  vm_compute. repeat (apply not_elem_of_cons; split; [discriminate|]).
  apply not_elem_of_nil.
Defined.

(** X2. Without an existing connection the resolver opens the device
    named by everything before the last slash of the locator, and only
    that: a failure to open it is the resolver's failure, and once it is
    open the resolution is the one made with that handle. *)
Theorem resolve_opens_device_path (d m : string)
    (open_device : string -> Result DeviceProxy) :
  "/"%char ∉ String.list_ascii_of_string m ->
  get_tango_trl (d +:+ "/" +:+ m) Absent open_device
  = (dp <- open_device d ;;;
     get_tango_trl (d +:+ "/" +:+ m) (Handle dp) open_device).
Proof.
  intros H. unfold get_tango_trl. rewrite (rsplit_slash_app d m H).
  destruct (open_device d); reflexivity.
Qed.

Lemma resolve_opens_device_path_witness :
  get_tango_trl ("sys/tg_test/1" +:+ "/" +:+ "State") Absent
    (fun d => if bool_decide (d = "sys/tg_test/1") then Ok tg_test
              else Raise (DevFailed "device not defined"))
  = Ok (Attribute (AttributeProxy.__init__ tg_test "State")).
Proof.
  rewrite (resolve_opens_device_path "sys/tg_test/1" "State").
  - reflexivity.
  - vm_compute. repeat (apply not_elem_of_cons; split; [discriminate|]).
    apply not_elem_of_nil.
Defined.

(** X3. With a device handle at hand, a resolution that succeeds returns
    a new proxy on that handle for the member after the last slash: an
    attribute proxy, unsubscribed, when the member is in the attribute
    list, whatever the other lists say; a command proxy with an empty
    reading only when it is in the command list and not in the attribute
    list; never a proxy for any other name. *)
Theorem resolve_sound (full_trl : string) (dp : DeviceProxy)
    (open_device : string -> Result DeviceProxy) (p : TangoProxy) :
  get_tango_trl full_trl (Handle dp) open_device = Ok p ->
  exists d m : string,
    full_trl = d +:+ "/" +:+ m
    /\ ("/"%char ∉ String.list_ascii_of_string m)
    /\ (((m ∈ get_attribute_list dp)
         /\ p = Attribute {| AttributeProxy._proxy := dp;
                             AttributeProxy._name := m;
                             AttributeProxy._event_callback := None;
                             AttributeProxy._eid := None |})
        \/ ((m ∉ get_attribute_list dp) /\ (m ∈ get_command_list dp)
            /\ p = Command {| CommandProxy._proxy := dp;
                              CommandProxy._name := m;
                              CommandProxy._last_reading :=
                                {| value := VNone; timestamp := 0%Q;
                                   alarm_severity := 0%Z |} |})).
Proof.
  unfold get_tango_trl.
  destruct (rsplit_slash full_trl) as [[d m]|] eqn:Hs; [|discriminate].
  destruct (rsplit_slash_some_inv _ _ _ Hs) as [-> Hm].
  cbn [bind]. intros H. exists d, m. split; [reflexivity|]. split; [exact Hm|].
  destruct (bool_decide (m ∈ get_attribute_list dp)) eqn:Ha.
  - apply bool_decide_eq_true_1 in Ha. injection H as <-. left. split; [exact Ha | reflexivity].
  - apply bool_decide_eq_false_1 in Ha.
    destruct (bool_decide (m ∈ get_command_list dp)) eqn:Hc.
    + apply bool_decide_eq_true_1 in Hc. injection H as <-. right.
      split; [exact Ha|]. split; [exact Hc | reflexivity].
    + destruct (bool_decide (m ∈ get_pipe_list dp)); discriminate.
Qed.

Lemma resolve_sound_witness :
  exists d m : string,
    "sys/tg_test/1/State" = d +:+ "/" +:+ m
    /\ ("/"%char ∉ String.list_ascii_of_string m)
    /\ (((m ∈ get_attribute_list tg_test)
         /\ Attribute (AttributeProxy.__init__ tg_test "State")
            = Attribute {| AttributeProxy._proxy := tg_test;
                           AttributeProxy._name := m;
                           AttributeProxy._event_callback := None;
                           AttributeProxy._eid := None |})
        \/ ((m ∉ get_attribute_list tg_test) /\ (m ∈ get_command_list tg_test)
            /\ Attribute (AttributeProxy.__init__ tg_test "State")
               = Command {| CommandProxy._proxy := tg_test;
                            CommandProxy._name := m;
                            CommandProxy._last_reading :=
                              {| value := VNone; timestamp := 0%Q;
                                 alarm_severity := 0%Z |} |})).
Proof.
  apply (resolve_sound "sys/tg_test/1/State" tg_test (fun _ => Ok tg_test)).
  reflexivity.
Defined.

(** ** Descriptor builder *)

Lemma typeid_of_descr (U : TangoUtils) (c : Config) (t : TypeId) :
  typeid_of U c = Ok t ->
  t.2 = "integer" \/ t.2 = "number" \/ t.2 = "string".
Proof.
  destruct c as [c|c|n]; cbn [typeid_of].
  - destruct (get_pyton_type U (data_type c)) as [[[a k] d]|e] eqn:H;
      [|discriminate].
    intros [= <-]. exact (get_pyton_type_descr U _ a k d H).
  - destruct (_ && _); [discriminate|].
    destruct (get_pyton_type U _) as [[[a k] d]|e] eqn:H; [|discriminate].
    intros [= <-]. exact (get_pyton_type_descr U _ a k d H).
  - discriminate.
Qed.

Lemma typeids_descr (U : TangoUtils) (items : list (string * Config))
    (ts : list (string * TypeId)) :
  typeids U items = Ok ts ->
  Forall (fun kt => kt.2.2 = "integer" \/ kt.2.2 = "number"
                    \/ kt.2.2 = "string") ts.
Proof.
  revert ts. induction items as [|[k c] items IH]; intros ts; cbn [typeids].
  - intros [= <-]. constructor.
  - destruct (typeid_of U c) as [t|e] eqn:Ht; [|discriminate]. cbn [bind].
    destruct (typeids U items) as [ts'|e]; [|discriminate]. cbn [bind].
    intros [= <-]. constructor; [|apply IH; reflexivity].
    exact (typeid_of_descr U c t Ht).
Qed.

Lemma get_unique_elem (values : list (string * TypeId)) (types : string)
    (u : TypeId) :
  get_unique values types = Ok u -> exists k, (k, u) ∈ values.
Proof.
  destruct values as [|[k v] rest]; cbn [get_unique]; [discriminate|].
  destruct (forallb _ rest); [|discriminate].
  intros [= <-]. exists k. left.
Qed.

(** X4. Whatever the expected type and the configs, a descriptor the
    builder returns has the given locator as source and one of two forms:
    dtype "array" with one or two dimensions and no choices, or an empty
    shape with dtype "integer", "number" or "string", choices being
    present only with dtype "string". *)
Theorem descriptor_well_formed (U : TangoUtils) (datatype : option Datatype)
    (src : string) (tr_configs : list (string * Config)) (desc : Descriptor) :
  get_trl_descriptor U datatype src tr_configs = Ok desc ->
  source desc = src
  /\ ((dtype desc = "array" /\ choices desc = None
       /\ (length (shape desc) = 1 \/ length (shape desc) = 2))
      \/ (shape desc = []
          /\ (dtype desc = "integer" \/ dtype desc = "number"
              \/ dtype desc = "string")
          /\ (choices desc <> None -> dtype desc = "string"))).
Proof.
  unfold get_trl_descriptor.
  destruct (typeids U tr_configs) as [ts|e] eqn:Hts; [|discriminate].
  cbn [bind].
  destruct (get_unique ts "typeids") as [[[f k] d]|e] eqn:Hu; [|discriminate].
  cbn [bind fst snd].
  assert (Hd : d = "integer" \/ d = "number" \/ d = "string").
  { destruct (get_unique_elem _ _ _ Hu) as [k0 Hin].
    pose proof (typeids_descr U _ _ Hts) as Hall.
    rewrite Forall_forall in Hall. exact (Hall _ Hin). }
  destruct tr_configs as [|[k0 c0] rest]; [discriminate|].
  destruct (bool_decide (f = SPECTRUM) || bool_decide (f = IMAGE)).
  - destruct datatype as [dt|]; cbn [bind].
    + destruct (negb (dt_extended dt)); [discriminate|].
      destruct (negb (dt_extended_eq dt k)); [discriminate|]. cbn [bind].
      destruct (bool_decide (f = SPECTRUM)); intros [= <-]; cbn;
        (split; [reflexivity|]); left; auto.
    + destruct (bool_decide (f = SPECTRUM)); intros [= <-]; cbn;
        (split; [reflexivity|]); left; auto.
  - destruct (bool_decide (k = py_Enum) || bool_decide (k = py_DevState)).
    + destruct datatype as [dt|]; cbn [bind].
      * destruct (negb (dt_is_enum dt)); [discriminate|].
        destruct (_ && _); [discriminate|]. cbn [bind].
        intros [= <-]; cbn; (split; [reflexivity|]); right; auto.
      * intros [= <-]; cbn; (split; [reflexivity|]); right; auto.
    + destruct datatype as [dt|]; cbn [bind].
      * destruct (negb (dt_accepts dt k)); [discriminate|]. cbn [bind].
        intros [= <-]; cbn. split; [reflexivity|]. right.
        split; [reflexivity|]. split; [exact Hd|]. intros H; congruence.
      * intros [= <-]; cbn. split; [reflexivity|]. right.
        split; [reflexivity|]. split; [exact Hd|]. intros H; congruence.
Qed.

Lemma descriptor_well_formed_witness :
  source {| source := "test/device/1/array"; dtype := "array";
            shape := [Finite 2; Finite 3]; choices := None |}
  = "test/device/1/array".
Proof.
  exact (proj1 (descriptor_well_formed PyTango.utils None
                  "test/device/1/array" [("array", AttrConfig array_config)]
                  _ array_descriptor)).
Defined.

(** X5. The expected type only filters: where the builder without an
    expected type returns a descriptor, the builder with one returns the
    same descriptor or raises a TypeError; where it fails without, it
    fails in the same way with. *)
Theorem expected_type_only_filters (U : TangoUtils) (dt : Datatype)
    (src : string) (tr_configs : list (string * Config)) :
  match get_trl_descriptor U None src tr_configs with
  | Ok desc =>
      get_trl_descriptor U (Some dt) src tr_configs = Ok desc
      \/ exists msg : string,
           get_trl_descriptor U (Some dt) src tr_configs
           = Raise (TypeError msg)
  | Raise e => get_trl_descriptor U (Some dt) src tr_configs = Raise e
  end.
Proof.
  unfold get_trl_descriptor.
  destruct (typeids U tr_configs) as [ts|e]; [|reflexivity]. cbn [bind].
  destruct (get_unique ts "typeids") as [[[f k] d]|e]; [|reflexivity].
  cbn [bind fst snd].
  destruct tr_configs as [|[k0 c0] rest]; [reflexivity|].
  destruct (bool_decide (f = SPECTRUM) || bool_decide (f = IMAGE)).
  - destruct (negb (dt_extended dt)); [cbn; destruct (bool_decide _); eauto|].
    destruct (negb (dt_extended_eq dt k)); cbn;
      destruct (bool_decide (f = SPECTRUM)); eauto.
  - destruct (bool_decide (k = py_Enum) || bool_decide (k = py_DevState)).
    + destruct (negb (dt_is_enum dt)); [cbn; eauto|].
      destruct (_ && _); cbn; eauto.
    + destruct (negb (dt_accepts dt k)); cbn; eauto.
Qed.

(** The type a command is typed by: its input type, or its output type
    when the input is void (line 282). *)
Definition command_type (cfg : CommandInfo) : CmdArgType :=
  if bool_decide (in_type cfg <> DevVoid) then in_type cfg else out_type cfg.

(** X6. A command config that passes the input/output guard, alone and
    with no expected type, is described from the array-ness and kind of
    its type only: an array type gives dtype "array" with the single,
    unbounded dimension; an enum kind gives dtype "string" with an empty
    list of choices; a device-state kind gives the global state names; any
    other kind gives its description with an empty shape. *)
Theorem command_descriptor (U : TangoUtils) (name src : string)
    (cfg : CommandInfo) (a : bool) (k : PyType) (d : string) :
  in_type cfg = DevVoid \/ out_type cfg = DevVoid
  \/ in_type cfg = out_type cfg ->
  get_pyton_type U (command_type cfg) = Ok (a, k, d) ->
  get_trl_descriptor U None src [(name, CmdConfig cfg)]
  = Ok (if a then
          {| source := src; dtype := "array"; shape := [Inf];
             choices := None |}
        else
          match k with
          | py_Enum =>
              {| source := src; dtype := "string"; shape := [];
                 choices := Some [] |}
          | py_DevState =>
              {| source := src; dtype := "string"; shape := [];
                 choices := Some DevState_names |}
          | _ =>
              {| source := src; dtype := d; shape := []; choices := None |}
          end).
Proof.
  intros Hguard Hty. unfold get_trl_descriptor. cbn [typeids typeid_of].
  assert (Hg : bool_decide (in_type cfg <> DevVoid)
               && bool_decide (out_type cfg <> DevVoid)
               && bool_decide (in_type cfg <> out_type cfg) = false).
  { destruct Hguard as [H|[H|H]].
    - rewrite (bool_decide_eq_false_2 (in_type cfg <> DevVoid)) by tauto.
      reflexivity.
    - rewrite (bool_decide_eq_false_2 (out_type cfg <> DevVoid)) by tauto.
      apply andb_false_intro1, andb_false_intro2. reflexivity.
    - rewrite (bool_decide_eq_false_2 (in_type cfg <> out_type cfg)) by tauto.
      apply andb_false_intro2. reflexivity. }
  rewrite Hg. fold (command_type cfg). rewrite Hty.
  destruct a, k; reflexivity.
Qed.

Definition enum_command : CommandInfo :=
  {| in_type := DevVoid; out_type := DevEnum |}.

Lemma command_descriptor_witness :
  get_trl_descriptor PyTango.utils None "sys/tg_test/1/mode"
    [("sys/tg_test/1/mode", CmdConfig enum_command)]
  = Ok {| source := "sys/tg_test/1/mode"; dtype := "string"; shape := [];
          choices := Some [] |}.
Proof.
  apply (command_descriptor PyTango.utils "sys/tg_test/1/mode"
           "sys/tg_test/1/mode" enum_command false py_Enum "string").
  - left. reflexivity.
  - reflexivity.
Defined.

Lemma same_set_spec (a b : list string) :
  same_set a b = true <-> (forall x, x ∈ a <-> x ∈ b).
Proof.
  unfold same_set. rewrite andb_true_iff, !forallb_forall. split.
  - intros [Hab Hba] x. split; intros Hx.
    + apply list_elem_of_In in Hx. apply Hab in Hx.
      apply bool_decide_eq_true_1 in Hx. exact Hx.
    + apply list_elem_of_In in Hx. apply Hba in Hx.
      apply bool_decide_eq_true_1 in Hx. exact Hx.
  - intros H. split; intros x Hx; apply bool_decide_eq_true_2;
      apply H, list_elem_of_In, Hx.
Qed.

(** X7. For one scalar attribute of enum kind and an expected type that is
    an enumeration, the builder compares label sets and nothing else: it
    returns the descriptor with the attribute's labels as choices exactly
    when the expected member names and the labels have the same elements,
    in any order and multiplicity, and raises a TypeError otherwise. *)
Theorem enum_labels_compared_as_sets (U : TangoUtils) (name src : string)
    (cfg : AttributeInfoEx) (dt : Datatype) (a : bool) (d : string) :
  get_pyton_type U (data_type cfg) = Ok (a, py_Enum, d) ->
  data_format cfg = SCALAR ->
  dt_is_enum dt = true ->
  ((forall x, x ∈ dt_member_names dt <-> x ∈ enum_labels cfg) ->
   get_trl_descriptor U (Some dt) src [(name, AttrConfig cfg)]
   = Ok {| source := src; dtype := "string"; shape := [];
           choices := Some (enum_labels cfg) |})
  /\ (~ (forall x, x ∈ dt_member_names dt <-> x ∈ enum_labels cfg) ->
      exists msg : string,
        get_trl_descriptor U (Some dt) src [(name, AttrConfig cfg)]
        = Raise (TypeError msg)).
Proof.
  intros Hty Hfmt Henum. unfold get_trl_descriptor.
  cbn [typeids typeid_of]. rewrite Hty, Hfmt. cbn -[same_set].
  rewrite Henum.
  rewrite (bool_decide_eq_false_2 (SCALAR = SPECTRUM)),
    (bool_decide_eq_false_2 (SCALAR = IMAGE)),
    (bool_decide_eq_true_2 (py_Enum = py_Enum)),
    (bool_decide_eq_false_2 (py_Enum = py_DevState))
    by first [discriminate | reflexivity].
  cbn -[same_set].
  destruct (same_set (dt_member_names dt) (enum_labels cfg)) eqn:Hs.
  - pose proof (proj1 (same_set_spec _ _) Hs) as Hsame.
    split; [reflexivity|]. tauto.
  - split.
    + intros H. pose proof (proj2 (same_set_spec _ _) H). congruence.
    + intros _. cbn. eauto.
Qed.

Definition colour_config : AttributeInfoEx :=
  {| data_type := DevEnum; data_format := SCALAR; max_dim_x := 1;
     max_dim_y := 0; enum_labels := ["RED"; "GREEN"; "BLUE"] |}.

Definition colour_type : Datatype :=
  {| dt_name := "Colour"; dt_extended := false;
     dt_extended_eq := fun _ => false; dt_is_enum := true;
     dt_member_names := ["BLUE"; "RED"; "GREEN"];
     dt_accepts := fun _ => false |}.

Lemma enum_labels_compared_as_sets_witness :
  get_trl_descriptor PyTango.utils (Some colour_type) "sys/tg_test/1/colour"
    [("sys/tg_test/1/colour", AttrConfig colour_config)]
  = Ok {| source := "sys/tg_test/1/colour"; dtype := "string"; shape := [];
          choices := Some ["RED"; "GREEN"; "BLUE"] |}.
Proof.
  apply (enum_labels_compared_as_sets PyTango.utils "sys/tg_test/1/colour"
           "sys/tg_test/1/colour" colour_config colour_type false "string");
    try reflexivity.
  apply (proj1 (same_set_spec _ _)). reflexivity.
Defined.

(** X8. For one attribute in scalar format and no expected type, the
    choices follow the kind alone: an enum kind lists the attribute's own
    labels, a device-state kind lists the global state names whatever
    labels the config carries, and any other kind has no choices and the
    mapper's description as dtype. *)
Theorem scalar_attribute_choices (U : TangoUtils) (name src : string)
    (cfg : AttributeInfoEx) (a : bool) (k : PyType) (d : string) :
  get_pyton_type U (data_type cfg) = Ok (a, k, d) ->
  data_format cfg = SCALAR ->
  get_trl_descriptor U None src [(name, AttrConfig cfg)]
  = Ok match k with
       | py_Enum =>
           {| source := src; dtype := "string"; shape := [];
              choices := Some (enum_labels cfg) |}
       | py_DevState =>
           {| source := src; dtype := "string"; shape := [];
              choices := Some DevState_names |}
       | _ => {| source := src; dtype := d; shape := []; choices := None |}
       end.
Proof.
  intros Hty Hfmt. unfold get_trl_descriptor.
  cbn [typeids typeid_of]. rewrite Hty, Hfmt. destruct k; reflexivity.
Qed.

Definition state_config : AttributeInfoEx :=
  {| data_type := DevState; data_format := SCALAR; max_dim_x := 1;
     max_dim_y := 0; enum_labels := ["IGNORED"] |}.

Lemma scalar_attribute_choices_witness :
  get_trl_descriptor PyTango.utils None "sys/tg_test/1/State"
    [("sys/tg_test/1/State", AttrConfig state_config)]
  = Ok {| source := "sys/tg_test/1/State"; dtype := "string"; shape := [];
          choices := Some DevState_names |}.
Proof.
  apply (scalar_attribute_choices PyTango.utils "sys/tg_test/1/State"
           "sys/tg_test/1/State" state_config false py_DevState "string");
    reflexivity.
Defined.

(** An unknown kind of config object stops the builder with the
    "Unknown config type" RuntimeError naming its class, whatever the
    expected type, as long as the configs before it are accepted. *)
Theorem unknown_config_rejected (U : TangoUtils) (datatype : option Datatype)
    (src k n : string) (pre post : list (string * Config)) :
  Forall (fun kc => is_ok (typeid_of U kc.2) = true) pre ->
  get_trl_descriptor U datatype src (pre ++ (k, OtherConfig n) :: post)
  = Raise (RuntimeError ("Unknown config type: " +:+ n)).
Proof.
  intros Hpre. unfold get_trl_descriptor.
  rewrite (typeids_raise_at U pre post k (OtherConfig n)
             (RuntimeError ("Unknown config type: " +:+ n)) Hpre eq_refl).
  reflexivity.
Qed.

Lemma unknown_config_rejected_witness :
  get_trl_descriptor PyTango.utils None "test/device/1/justvalue"
    ([("test/device/1/justvalue", AttrConfig justvalue_config)]
       ++ ("test/device/1/blob", OtherConfig "<class 'tango.PipeInfo'>") :: [])
  = Raise (RuntimeError "Unknown config type: <class 'tango.PipeInfo'>").
Proof.
  apply (unknown_config_rejected PyTango.utils None "test/device/1/justvalue"
           "test/device/1/blob" "<class 'tango.PipeInfo'>"
           [("test/device/1/justvalue", AttrConfig justvalue_config)] []).
  repeat constructor.
Defined.

(** ** Reply polling and cancellation *)

Lemma poll_leaves_on_sleep (attempt : nat -> Result PyVal)
    (sleep : nat -> Result unit) (e : PyExn) (k : nat) :
  (forall n, is_ok (attempt n) = false) ->
  (forall n, n < k -> sleep n = Ok tt) ->
  sleep k = Raise e ->
  forall fuel, k < fuel -> poll attempt sleep fuel 0 = Returns (Raise e) k.
Proof.
  intros Ha Hs Hk.
  assert (G : forall j fuel n, n + j = k -> j < fuel ->
                poll attempt sleep fuel n = Returns (Raise e) k).
  { induction j as [|j IH]; intros fuel n Hn Hf.
    - replace n with k by lia. destruct fuel; [lia|]. cbn [poll].
      specialize (Ha k). destruct (attempt k); [discriminate|].
      rewrite Hk. reflexivity.
    - destruct fuel; [lia|]. cbn [poll].
      specialize (Ha n). destruct (attempt n); [discriminate|].
      rewrite Hs by lia. apply IH; lia. }
  intros fuel Hf. apply (G k fuel 0%nat); lia.
Qed.

(** X9. The only way out of the polling loop is an exception raised by
    the sleep itself (a cancellation of the task): on either proxy, with
    [wait] false and any timeout that [if timeout:] takes for true (any
    non-zero one, negative ones included), if the sleep of pass [k] is
    the first to raise, the put raises that same exception after [k]
    completed sleeps, and the command proxy's cached reading is not
    rewritten. *)
Theorem put_ends_when_sleep_raises (a : AttributeProxy.t)
    (c : CommandProxy.t) (v : PyVal) (timeout : option Q) (env : PutEnv)
    (rid : Z) (e : PyExn) (k fuel : nat) :
  truthy_timeout timeout = true ->
  asynch_call env = Ok rid ->
  (forall n, n < k -> sleep env n = Ok tt) ->
  sleep env k = Raise e ->
  k < fuel ->
  AttributeProxy.put a v false timeout env fuel = Returns (Raise e) k
  /\ CommandProxy.put c v false timeout env fuel = Returns (Raise e) k.
Proof.
  intros Ht Hrid Hs Hk Hf.
  assert (H : poll (reply_attempt env rid) (sleep env) fuel 0
              = Returns (Raise e) k).
  { apply poll_leaves_on_sleep; try assumption.
    intros n. rewrite reply_attempt_raises. reflexivity. }
  unfold AttributeProxy.put, CommandProxy.put.
  rewrite Hrid, Ht, H. split; reflexivity.
Qed.

Definition cancelled_at_3 : PutEnv :=
  {| sync_call := Ok VNone; asynch_call := Ok 7%Z;
     reply := fun _ _ => Ok (VInt 42);
     sleep := fun n => if (n <? 3)%nat then Ok tt else Raise CancelledError;
     now := 0%Q |}.

Lemma put_ends_when_sleep_raises_witness :
  AttributeProxy.put subscribed_proxy (VInt 1) false (Some (-1 # 2)%Q)
    cancelled_at_3 10
  = Returns (Raise CancelledError) 3
  /\ CommandProxy.put clear_proxy (VInt 1) false (Some (-1 # 2)%Q)
       cancelled_at_3 10
     = Returns (Raise CancelledError) 3.
Proof.
  apply (put_ends_when_sleep_raises subscribed_proxy clear_proxy (VInt 1)
           (Some (-1 # 2)%Q) cancelled_at_3 7%Z CancelledError 3 10).
  - reflexivity.
  - reflexivity.
  - intros n Hn. destruct n as [|[|[|n]]]; [reflexivity | reflexivity | reflexivity | lia].
  - reflexivity.
  - lia.
Defined.

(** ** Attribute proxy: subscription life cycle *)

(** X10. Subscribing a new proxy and then unsubscribing it is a round
    trip: with a non-zero event id the proxy is subscribed in between, it
    ends as it started, and the device saw exactly one subscribe for the
    attribute followed by one unsubscribe of that id. *)
Theorem subscribe_unsubscribe_round_trip (dp : DeviceProxy) (n : string)
    (cb : Callback) (eid : Z) :
  eid <> 0%Z ->
  let e1 := AttributeProxy.subscribe_callback (AttributeProxy.__init__ dp n)
              (Some cb) (Ok eid) in
  let e2 := AttributeProxy.unsubscribe_callback (after e1) (Ok tt) in
  result e1 = Ok tt /\ result e2 = Ok tt
  /\ AttributeProxy.has_subscription (after e1) = true
  /\ after e2 = AttributeProxy.__init__ dp n
  /\ (calls e1 ++ calls e2 = [subscribe_event n; unsubscribe_event eid])%list.
Proof.
  intros Hne. cbn.
  assert (Hz : (eid =? 0)%Z = false) by (apply Z.eqb_neq; exact Hne).
  unfold AttributeProxy.unsubscribe_callback, AttributeProxy.has_subscription.
  cbn. rewrite Hz. cbn. repeat split.
Qed.

Lemma subscribe_unsubscribe_round_trip_witness :
  after (AttributeProxy.unsubscribe_callback
           (after (AttributeProxy.subscribe_callback
                     (AttributeProxy.__init__ tg_test "double_scalar")
                     (Some 1) (Ok 5%Z)))
           (Ok tt))
  = AttributeProxy.__init__ tg_test "double_scalar".
Proof.
  destruct (subscribe_unsubscribe_round_trip tg_test "double_scalar" 1 5%Z)
    as [_ [_ [_ [H _]]]].
  - discriminate.
  - exact H.
Defined.

(** X11. When the device refuses to release the subscription,
    [unsubscribe_callback] raises the device's exception and leaves the
    proxy as it was: still subscribed, the callback still stored. *)
Theorem failed_release_keeps_subscription (a : AttributeProxy.t) (e : PyExn) :
  AttributeProxy.has_subscription a = true ->
  let r := AttributeProxy.unsubscribe_callback a (Raise e) in
  result r = Raise e /\ after r = a
  /\ AttributeProxy.has_subscription (after r) = true.
Proof.
  intros Hsub. destruct (has_subscription_eid a Hsub) as [eid [He Hne]].
  unfold AttributeProxy.unsubscribe_callback. rewrite He. cbn.
  assert (Hz : (eid =? 0)%Z = false) by (apply Z.eqb_neq; exact Hne).
  rewrite Hz. cbn. repeat split. exact Hsub.
Qed.

Lemma failed_release_keeps_subscription_witness :
  after (AttributeProxy.unsubscribe_callback subscribed_proxy
           (Raise (DevFailed "API_EventNotFound")))
  = subscribed_proxy.
Proof.
  destruct (failed_release_keeps_subscription subscribed_proxy
              (DevFailed "API_EventNotFound")) as [_ [H _]].
  - reflexivity.
  - exact H.
Defined.

(** X12. When the device rejects the subscription, [subscribe_callback]
    on an unsubscribed proxy raises the device's exception after one
    subscribe call; the callback has already been stored, and the proxy
    still holds no handle. *)
Theorem failed_subscribe_stores_callback (a : AttributeProxy.t)
    (cb : option Callback) (e : PyExn) :
  AttributeProxy.has_subscription a = false ->
  let r := AttributeProxy.subscribe_callback a cb (Raise e) in
  result r = Raise e
  /\ calls r = [subscribe_event (AttributeProxy._name a)]
  /\ AttributeProxy._event_callback (after r) = cb
  /\ AttributeProxy._eid (after r) = AttributeProxy._eid a
  /\ AttributeProxy.has_subscription (after r) = false.
Proof.
  intros Hsub. unfold AttributeProxy.subscribe_callback.
  unfold AttributeProxy.has_subscription in *. cbn. rewrite Hsub. cbn.
  repeat split. exact Hsub.
Qed.

Lemma failed_subscribe_stores_callback_witness :
  AttributeProxy._event_callback
    (after (AttributeProxy.subscribe_callback
              (AttributeProxy.__init__ tg_test "double_scalar") (Some 4)
              (Raise (DevFailed "API_AttributePollingNotStarted"))))
  = Some 4.
Proof.
  destruct (failed_subscribe_stores_callback
              (AttributeProxy.__init__ tg_test "double_scalar") (Some 4)
              (DevFailed "API_AttributePollingNotStarted"))
    as [_ [_ [H _]]].
  - reflexivity.
  - exact H.
Defined.

(** X13. Unsubscribing is idempotent: after one successful
    [unsubscribe_callback] a second one changes nothing, succeeds, and
    makes no call to the device, whatever the device would answer. *)
Theorem unsubscribe_idempotent (a : AttributeProxy.t) (released : Result unit) :
  let a1 := after (AttributeProxy.unsubscribe_callback a (Ok tt)) in
  AttributeProxy.unsubscribe_callback a1 released
  = {| after := a1; calls := []; result := Ok tt |}.
Proof.
  unfold AttributeProxy.unsubscribe_callback.
  destruct (AttributeProxy._eid a) as [eid|]; cbn.
  - destruct (eid =? 0)%Z eqn:Hz; cbn; rewrite ?Hz; reflexivity.
  - reflexivity.
Qed.

(** ** Attribute proxy: event delivery *)

(** X14. A change event without error is delivered to the callback stored
    last: after [subscribe_callback cb], also when it only swapped the
    callback of a running subscription, the processor calls [cb] with the
    event's value and a reading made of that value, the event's time and
    the value's quality. *)
Theorem event_goes_to_latest_callback (a : AttributeProxy.t) (cb : Callback)
    (subscribed : Result Z) (ev : EventData) :
  ev_err ev = false ->
  AttributeProxy._event_processor
    (after (AttributeProxy.subscribe_callback a (Some cb) subscribed)) ev
  = Ok (Some {| to_callback := cb;
                with_reading :=
                  {| value := attr_value (ev_attr_value ev);
                     timestamp := ev_date ev;
                     alarm_severity := attr_quality (ev_attr_value ev) |};
                with_value := attr_value (ev_attr_value ev) |}).
Proof.
  intros Herr. unfold AttributeProxy._event_processor. rewrite Herr. cbn.
  unfold AttributeProxy.subscribe_callback. cbn.
  destruct (negb (truthy_eid (AttributeProxy._eid a)));
    [destruct subscribed|]; reflexivity.
Qed.

Definition change_event : EventData :=
  {| ev_err := false;
     ev_attr_value := {| attr_value := VFloat (3 # 2); attr_w_value := VNone;
                         attr_time := (1700000000 # 1)%Q;
                         attr_quality := ATTR_VALID |};
     ev_date := (1700000001 # 1)%Q |}.

Lemma event_goes_to_latest_callback_witness :
  AttributeProxy._event_processor
    (after (AttributeProxy.subscribe_callback subscribed_proxy (Some 2)
              (Ok 6%Z))) change_event
  = Ok (Some {| to_callback := 2;
                with_reading :=
                  {| value := VFloat (3 # 2);
                     timestamp := (1700000001 # 1)%Q;
                     alarm_severity := ATTR_VALID |};
                with_value := VFloat (3 # 2) |}).
Proof.
  apply (event_goes_to_latest_callback subscribed_proxy 2 (Ok 6%Z)
           change_event).
  reflexivity.
Defined.

(** X15. An event flagged as error is dropped without any call, callback
    or not; an event without error that reaches a proxy whose callback has
    been cleared by [unsubscribe_callback] is a call of None and raises
    TypeError. *)
Theorem event_without_callback (a : AttributeProxy.t) (ev : EventData) :
  (ev_err ev = true -> AttributeProxy._event_processor a ev = Ok None)
  /\ (ev_err ev = false ->
      AttributeProxy._event_processor
        (after (AttributeProxy.unsubscribe_callback a (Ok tt))) ev
      = Raise (TypeError "'NoneType' object is not callable")).
Proof.
  unfold AttributeProxy._event_processor. split; intros ->; cbn.
  - reflexivity.
  - unfold AttributeProxy.unsubscribe_callback.
    destruct (AttributeProxy._eid a) as [eid|]; cbn;
      [destruct (eid =? 0)%Z|]; reflexivity.
Qed.

Lemma event_without_callback_witness :
  AttributeProxy._event_processor
    (after (AttributeProxy.unsubscribe_callback subscribed_proxy (Ok tt)))
    change_event
  = Raise (TypeError "'NoneType' object is not callable").
Proof.
  apply (event_without_callback subscribed_proxy change_event).
  reflexivity.
Defined.

(** ** Transport: the connect step *)

Lemma lookup_set_proxy (self : TangoTransport.t) (trl trl' : string)
    (p : TangoProxy) :
  TangoTransport.proxies (TangoTransport.set_proxy self trl p) !! trl'
  = if decide (trl = trl') then Some (Endpoint p)
    else TangoTransport.proxies self !! trl'.
Proof. cbn. apply lookup_insert. Qed.

Lemma dict_set_elem {V : Type} (k : string) (v : V) (d : list (string * V)) :
  (k, v) ∈ dict_set k v d.
Proof.
  induction d as [|[k' v'] d IH]; cbn.
  - left.
  - destruct (bool_decide (k = k')); [left | right; exact IH].
Qed.

(** [d[k]] on an insertion-ordered dict: the value of the first item
    whose key is [k]. *)
Fixpoint dict_get {V : Type} (k : string) (d : list (string * V))
  : option V :=
  match d with
  | [] => None
  | (k', v') :: rest => if bool_decide (k = k') then Some v' else dict_get k rest
  end.

(** After [d[k] = v], [d[k]] is [v]. *)
Lemma dict_get_set_eq {V : Type} (k : string) (v : V)
    (d : list (string * V)) :
  dict_get k (dict_set k v d) = Some v.
Proof.
  induction d as [|[k' v'] d IH]; cbn.
  - rewrite bool_decide_eq_true_2 by reflexivity. reflexivity.
  - destruct (bool_decide (k = k')) eqn:Hk; cbn.
    + rewrite bool_decide_eq_true_2 by reflexivity. reflexivity.
    + rewrite Hk. exact IH.
Qed.

(** [d[k] = v] leaves every other key as it was. *)
Lemma dict_get_set_ne {V : Type} (k k' : string) (v : V)
    (d : list (string * V)) :
  k' <> k -> dict_get k' (dict_set k v d) = dict_get k' d.
Proof.
  intros Hne. induction d as [|[k0 v0] d IH]; cbn.
  - rewrite bool_decide_eq_false_2 by exact Hne. reflexivity.
  - destruct (bool_decide (k = k0)) eqn:Hk; cbn.
    + apply bool_decide_eq_true_1 in Hk. subst k0.
      rewrite !bool_decide_eq_false_2 by exact Hne. reflexivity.
    + destruct (bool_decide (k' = k0)); [reflexivity | exact IH].
Qed.

(** [d[k] = v] keeps the keys in their order, and appends [k] when it is
    new. *)
Lemma dict_set_keys {V : Type} (k : string) (v : V) (d : list (string * V)) :
  (dict_set k v d).*1
  = match dict_get k d with
    | Some _ => d.*1
    | None => (d.*1 ++ [k])%list
    end.
Proof.
  induction d as [|[k0 v0] d IH]; cbn.
  - reflexivity.
  - destruct (bool_decide (k = k0)) eqn:Hk; cbn.
    + apply bool_decide_eq_true_1 in Hk. subst k0. reflexivity.
    + rewrite IH. destruct (dict_get k d); reflexivity.
Qed.

(** X16. A connect step whose resolution and config fetch both succeed
    stores the proxy under the locator and the config under the same
    locator, and raises nothing: afterwards [proxies[trl]] is the proxy
    and [trl_configs[trl]] is the config; [trl_configs] is the former
    dict with that one assignment made, so every other key reads as
    before and the keys keep their order, the locator being appended when
    it is new; every other slot of [proxies], the locators, the source and
    the descriptor are as before. *)
Theorem connect_step_stores (self : TangoTransport.t) (trl : string)
    (slot : Slot) (p : TangoProxy) (c : Config)
    (env : TangoTransport.ConnectEnv) :
  TangoTransport.proxies self !! trl = Some slot ->
  get_tango_trl trl slot (TangoTransport.open_device env) = Ok p ->
  TangoTransport.get_config env p = Ok c ->
  let r := TangoTransport._connect_and_store_config self trl env in
  r.2 = Ok tt
  /\ TangoTransport.proxies r.1 !! trl = Some (Endpoint p)
  /\ dict_get trl (TangoTransport.trl_configs r.1) = Some c
  /\ (forall trl', trl' <> trl ->
        dict_get trl' (TangoTransport.trl_configs r.1)
        = dict_get trl' (TangoTransport.trl_configs self))
  /\ (TangoTransport.trl_configs r.1).*1
     = match dict_get trl (TangoTransport.trl_configs self) with
       | Some _ => (TangoTransport.trl_configs self).*1
       | None => ((TangoTransport.trl_configs self).*1 ++ [trl])%list
       end
  /\ (trl, c) ∈ TangoTransport.trl_configs r.1
  /\ (forall trl', trl' <> trl ->
        TangoTransport.proxies r.1 !! trl'
        = TangoTransport.proxies self !! trl')
  /\ TangoTransport.read_trl r.1 = TangoTransport.read_trl self
  /\ TangoTransport.write_trl r.1 = TangoTransport.write_trl self
  /\ TangoTransport.source r.1 = TangoTransport.source self
  /\ TangoTransport.descriptor r.1 = TangoTransport.descriptor self.
Proof.
  intros Hslot Hres Hcfg.
  unfold TangoTransport._connect_and_store_config,
    TangoTransport.connect_body.
  rewrite Hslot, Hres, Hcfg. cbn.
  split; [reflexivity|]. split; [apply lookup_insert_eq|].
  split; [apply dict_get_set_eq|].
  split; [intros trl' Hne; apply dict_get_set_ne; exact Hne|].
  split; [apply dict_set_keys|].
  split; [apply dict_set_elem|].
  split; [|repeat split].
  intros trl' Hne. apply lookup_insert_ne. congruence.
Qed.

Definition tg_env : TangoTransport.ConnectEnv :=
  {| TangoTransport.open_device := fun _ => Ok tg_test;
     TangoTransport.get_config := fun _ => Ok (AttrConfig justvalue_config) |}.

Lemma connect_step_stores_witness :
  (TangoTransport._connect_and_store_config unconnected
     "sys/tg_test/1/double_scalar" tg_env).2 = Ok tt.
Proof.
  destruct (connect_step_stores unconnected "sys/tg_test/1/double_scalar"
              Absent
              (Attribute (AttributeProxy.__init__ tg_test "double_scalar"))
              (AttrConfig justvalue_config) tg_env) as [H _];
    [reflexivity | reflexivity | reflexivity | exact H].
Defined.

(** X17. Only a cancellation is translated: when the body of the connect
    step ends with any other exception (a member that cannot be found, a
    device that cannot be reached), the step raises that exception as it
    is, not NotConnected. *)
Theorem connect_step_other_errors_raw (self : TangoTransport.t)
    (trl : string) (env : TangoTransport.ConnectEnv) (e : PyExn) :
  (TangoTransport.connect_body self trl env).2 = Raise e ->
  e <> CancelledError ->
  TangoTransport._connect_and_store_config self trl env
  = TangoTransport.connect_body self trl env.
Proof.
  intros He Hne. unfold TangoTransport._connect_and_store_config.
  rewrite He. destruct e; try reflexivity. congruence.
Qed.

Definition handled : TangoTransport.t :=
  TangoTransport.__init__ None "sys/tg_test/1/nonexistent"
    "sys/tg_test/1/nonexistent" (Some tg_test).

Lemma connect_step_other_errors_raw_witness :
  TangoTransport._connect_and_store_config handled
    "sys/tg_test/1/nonexistent" tg_env
  = (handled,
     Raise (RuntimeError "nonexistent cannot be found in sys/tg_test/1")).
Proof.
  rewrite (connect_step_other_errors_raw handled "sys/tg_test/1/nonexistent"
             tg_env
             (RuntimeError "nonexistent cannot be found in sys/tg_test/1")).
  - reflexivity.
  - reflexivity.
  - discriminate.
Defined.

(** X18. The connect step cannot be repeated: on a locator whose slot
    already holds an endpoint proxy, the proxy is taken for the device
    handle and the step raises AttributeError, without opening a device
    and leaving the transport as it was. *)
Theorem connect_step_not_repeatable (self : TangoTransport.t)
    (trl d m : string) (p : TangoProxy) (env : TangoTransport.ConnectEnv) :
  TangoTransport.proxies self !! trl = Some (Endpoint p) ->
  rsplit_slash trl = Some (d, m) ->
  TangoTransport._connect_and_store_config self trl env
  = (self,
     Raise (AttributeError
              ("'" +:+ class_name p
                 +:+ "' object has no attribute 'get_attribute_list'"))).
Proof.
  intros Hslot Hs.
  unfold TangoTransport._connect_and_store_config,
    TangoTransport.connect_body, get_tango_trl.
  rewrite Hslot, Hs. reflexivity.
Qed.

Lemma connect_step_not_repeatable_witness :
  TangoTransport._connect_and_store_config
    (TangoTransport._connect_and_store_config unconnected
       "sys/tg_test/1/double_scalar" tg_env).1
    "sys/tg_test/1/double_scalar" tg_env
  = ((TangoTransport._connect_and_store_config unconnected
        "sys/tg_test/1/double_scalar" tg_env).1,
     Raise (AttributeError
              "'AttributeProxy' object has no attribute 'get_attribute_list'")).
Proof.
  apply (connect_step_not_repeatable _ "sys/tg_test/1/double_scalar"
           "sys/tg_test/1" "double_scalar"
           (Attribute (AttributeProxy.__init__ tg_test "double_scalar"))
           tg_env); reflexivity.
Defined.

(** X19. Connecting a new transport whose two locators are equal and
    whose device handle is given: when the member resolves to [p] and its
    config is fetched, the transport ends with [p] as its only proxy and
    that config as its only config; the descriptor is the builder's, from
    that one config and the expected type, and is cached; if the builder
    raises, [connect] raises the same and no descriptor is cached.
    [wait_for_connection] is not used. *)
Theorem connect_single_locator
    (wait_for_connection :
       list (string * (TangoTransport.t -> TangoTransport.t * Result unit)) ->
       TangoTransport.t -> TangoTransport.t * Result unit)
    (U : TangoUtils) (dt : option Datatype) (trl : string) (dp : DeviceProxy)
    (p : TangoProxy) (c : Config) (env : TangoTransport.ConnectEnv) :
  get_tango_trl trl (Handle dp) (TangoTransport.open_device env) = Ok p ->
  TangoTransport.get_config env p = Ok c ->
  let connected (d : option Descriptor) : TangoTransport.t :=
    {| TangoTransport.datatype := dt; TangoTransport.read_trl := trl;
       TangoTransport.write_trl := trl;
       TangoTransport.proxies := {[trl := Endpoint p]};
       TangoTransport.trl_configs := [(trl, c)];
       TangoTransport.source := trl; TangoTransport.descriptor := d |} in
  TangoTransport.connect wait_for_connection U
    (TangoTransport.__init__ dt trl trl (Some dp)) env
  = match get_trl_descriptor U dt trl [(trl, c)] with
    | Ok desc => (connected (Some desc), Ok tt)
    | Raise e => (connected None, Raise e)
    end.
Proof.
  intros Hres Hcfg connected. unfold TangoTransport.connect.
  cbn [TangoTransport.read_trl TangoTransport.write_trl TangoTransport.__init__].
  rewrite bool_decide_eq_false_2 by (intros H; apply H; reflexivity).
  unfold TangoTransport._connect_and_store_config,
    TangoTransport.connect_body.
  cbn [TangoTransport.proxies TangoTransport.__init__].
  rewrite lookup_insert_eq, Hres, Hcfg. cbn [fst snd].
  assert (Hst : TangoTransport.set_config
                  (TangoTransport.set_proxy
                     (TangoTransport.__init__ dt trl trl (Some dp)) trl p)
                  trl c
                = connected None).
  { subst connected. unfold TangoTransport.set_config,
      TangoTransport.set_proxy, TangoTransport.__init__. cbn.
    f_equal. rewrite !insert_insert_eq, insert_empty. reflexivity. }
  rewrite Hst. subst connected.
  cbn [TangoTransport.datatype TangoTransport.read_trl
       TangoTransport.trl_configs].
  destruct (get_trl_descriptor U dt trl [(trl, c)]); reflexivity.
Qed.

Lemma connect_single_locator_witness :
  (TangoTransport.connect (fun _ s => (s, Ok tt)) PyTango.utils
     (TangoTransport.__init__ None "sys/tg_test/1/double_scalar"
        "sys/tg_test/1/double_scalar" (Some tg_test)) tg_env).2
  = Ok tt.
Proof.
  rewrite (connect_single_locator (fun _ s => (s, Ok tt)) PyTango.utils None
             "sys/tg_test/1/double_scalar" tg_test
             (Attribute (AttributeProxy.__init__ tg_test "double_scalar"))
             (AttrConfig justvalue_config) tg_env);
    reflexivity.
Defined.

(** ** Transport: callbacks and the proxies map *)

Lemma set_callback_on_attribute (self : TangoTransport.t)
    (a : AttributeProxy.t) (callback : option Callback)
    (subscribed : Result Z) (released : Result unit) :
  TangoTransport.proxies self !! TangoTransport.read_trl self
  = Some (Endpoint (Attribute a)) ->
  TangoTransport.set_callback self callback subscribed released
  = match callback with
    | Some cb =>
        if AttributeProxy.has_subscription a then
          TangoTransport.failed self
            (AssertionError "Cannot set a callback when one is already set")
        else
          let e := AttributeProxy.subscribe_callback a (Some cb) subscribed in
          {| after := TangoTransport.set_proxy self
                        (TangoTransport.read_trl self) (Attribute (after e));
             calls := calls e;
             result :=
               match result e with
               | Ok _ => Ok tt
               | Raise err =>
                   if is_Exception err then
                     Raise (RuntimeError
                              ("Cannot set event for "
                                 +:+ TangoTransport.read_trl self +:+ ". "
                                 +:+ "This signal should be used only as non-cached!"))
                   else Raise err
               end |}
    | None =>
        let e := AttributeProxy.unsubscribe_callback a released in
        {| after := TangoTransport.set_proxy self
                      (TangoTransport.read_trl self) (Attribute (after e));
           calls := calls e; result := result e |}
    end.
Proof.
  intros H. unfold TangoTransport.set_callback. rewrite H.
  destruct callback; reflexivity.
Qed.

Lemma read_slot_after_set_proxy (self : TangoTransport.t) (p : TangoProxy) :
  let s := TangoTransport.set_proxy self (TangoTransport.read_trl self) p in
  TangoTransport.proxies s !! TangoTransport.read_trl s = Some (Endpoint p).
Proof. cbn. apply lookup_insert_eq. Qed.

(** X20. The life of a callback on a connected attribute transport that
    holds no handle: [set_callback cb1] subscribes with one device call;
    from there a second [set_callback cb2] is refused as already set and
    changes nothing, while [set_callback None] releases the handle with
    one device call; after that release [set_callback cb2] subscribes
    again. *)
Theorem set_callback_life_cycle (self : TangoTransport.t)
    (a : AttributeProxy.t) (cb1 cb2 : Callback) (eid1 eid2 : Z)
    (s : Result Z) (r : Result unit) :
  TangoTransport.proxies self !! TangoTransport.read_trl self
  = Some (Endpoint (Attribute a)) ->
  AttributeProxy._eid a = None ->
  eid1 <> 0%Z ->
  let e1 := TangoTransport.set_callback self (Some cb1) (Ok eid1) r in
  let e2 := TangoTransport.set_callback (after e1) (Some cb2) s r in
  let e3 := TangoTransport.set_callback (after e1) None s (Ok tt) in
  let e4 := TangoTransport.set_callback (after e3) (Some cb2) (Ok eid2) r in
  (result e1 = Ok tt
   /\ calls e1 = [subscribe_event (AttributeProxy._name a)])
  /\ e2 = {| after := after e1; calls := [];
             result := Raise (AssertionError
                                "Cannot set a callback when one is already set") |}
  /\ (result e3 = Ok tt /\ calls e3 = [unsubscribe_event eid1])
  /\ (result e4 = Ok tt
      /\ calls e4 = [subscribe_event (AttributeProxy._name a)]).
Proof.
  intros Hslot Heid Hne e1 e2 e3 e4.
  assert (Hz : (eid1 =? 0)%Z = false) by (apply Z.eqb_neq; exact Hne).
  set (a1 := {| AttributeProxy._proxy := AttributeProxy._proxy a;
                AttributeProxy._name := AttributeProxy._name a;
                AttributeProxy._event_callback := Some cb1;
                AttributeProxy._eid := Some eid1 |}).
  set (a3 := {| AttributeProxy._proxy := AttributeProxy._proxy a;
                AttributeProxy._name := AttributeProxy._name a;
                AttributeProxy._event_callback := None;
                AttributeProxy._eid := None |}).
  assert (H1 : e1 = {| after := TangoTransport.set_proxy self
                                  (TangoTransport.read_trl self) (Attribute a1);
                       calls := [subscribe_event (AttributeProxy._name a)];
                       result := Ok tt |}).
  { subst e1. rewrite (set_callback_on_attribute self a _ _ _ Hslot).
    unfold AttributeProxy.has_subscription, AttributeProxy.subscribe_callback.
    cbn. rewrite Heid. reflexivity. }
  assert (Hs1 : TangoTransport.proxies (after e1)
                  !! TangoTransport.read_trl (after e1)
                = Some (Endpoint (Attribute a1))).
  { rewrite H1. apply read_slot_after_set_proxy. }
  assert (H3 : e3 = {| after := TangoTransport.set_proxy (after e1)
                                  (TangoTransport.read_trl (after e1))
                                  (Attribute a3);
                       calls := [unsubscribe_event eid1];
                       result := Ok tt |}).
  { subst e3. rewrite (set_callback_on_attribute _ a1 _ _ _ Hs1).
    unfold AttributeProxy.unsubscribe_callback. cbn. rewrite Hz. reflexivity. }
  assert (Hs3 : TangoTransport.proxies (after e3)
                  !! TangoTransport.read_trl (after e3)
                = Some (Endpoint (Attribute a3))).
  { rewrite H3. apply read_slot_after_set_proxy. }
  split; [rewrite H1; split; reflexivity|].
  split.
  { subst e2. rewrite (set_callback_on_attribute _ a1 _ _ _ Hs1).
    unfold AttributeProxy.has_subscription. cbn. rewrite Hz. reflexivity. }
  split; [rewrite H3; split; reflexivity|].
  subst e4. rewrite (set_callback_on_attribute _ a3 _ _ _ Hs3).
  split; reflexivity.
Qed.

Definition fresh_transport : TangoTransport.t :=
  TangoTransport.set_proxy
    (TangoTransport.__init__ None "sys/tg_test/1/double_scalar"
       "sys/tg_test/1/double_scalar" (Some tg_test))
    "sys/tg_test/1/double_scalar"
    (Attribute (AttributeProxy.__init__ tg_test "double_scalar")).

Lemma set_callback_life_cycle_witness :
  result (TangoTransport.set_callback
            (after (TangoTransport.set_callback fresh_transport (Some 1)
                      (Ok 5%Z) (Ok tt)))
            (Some 2) (Ok 6%Z) (Ok tt))
  = Raise (AssertionError "Cannot set a callback when one is already set").
Proof.
  destruct (set_callback_life_cycle fresh_transport
              (AttributeProxy.__init__ tg_test "double_scalar") 1 2 5%Z 6%Z
              (Ok 6%Z) (Ok tt)) as [_ [H _]].
  - reflexivity.
  - reflexivity.
  - discriminate.
  - exact (f_equal result H).
Defined.

(** X21. When the device rejects the subscription, [set_callback] raises
    the RuntimeError that names the read locator and says the signal is to
    be used non-cached; one subscribe call was made, the read-side proxy
    keeps the callback but holds no handle, so a later [set_callback] is
    not refused as already set. *)
Theorem set_callback_rejected (self : TangoTransport.t)
    (a : AttributeProxy.t) (cb : Callback) (err : PyExn)
    (released : Result unit) :
  TangoTransport.proxies self !! TangoTransport.read_trl self
  = Some (Endpoint (Attribute a)) ->
  AttributeProxy.has_subscription a = false ->
  is_Exception err = true ->
  let e := TangoTransport.set_callback self (Some cb) (Raise err) released in
  result e
  = Raise (RuntimeError
             ("Cannot set event for " +:+ TangoTransport.read_trl self
                +:+ ". This signal should be used only as non-cached!"))
  /\ calls e = [subscribe_event (AttributeProxy._name a)]
  /\ exists a' : AttributeProxy.t,
       TangoTransport.proxies (after e) !! TangoTransport.read_trl (after e)
       = Some (Endpoint (Attribute a'))
       /\ AttributeProxy._event_callback a' = Some cb
       /\ AttributeProxy.has_subscription a' = false.
Proof.
  intros Hslot Hsub Herr e. subst e.
  rewrite (set_callback_on_attribute self a _ _ _ Hslot). rewrite Hsub.
  unfold AttributeProxy.subscribe_callback.
  unfold AttributeProxy.has_subscription in Hsub. cbn. rewrite Hsub. cbn.
  rewrite Herr. split; [reflexivity|]. split; [reflexivity|].
  eexists. split; [apply lookup_insert_eq|]. split; [reflexivity|].
  unfold AttributeProxy.has_subscription. cbn. exact Hsub.
Qed.

Lemma set_callback_rejected_witness :
  result (TangoTransport.set_callback fresh_transport (Some 1)
            (Raise (DevFailed "API_AttributePollingNotStarted")) (Ok tt))
  = Raise (RuntimeError
             ("Cannot set event for " +:+ "sys/tg_test/1/double_scalar"
                +:+ ". This signal should be used only as non-cached!")).
Proof.
  destruct (set_callback_rejected fresh_transport
              (AttributeProxy.__init__ tg_test "double_scalar") 1
              (DevFailed "API_AttributePollingNotStarted") (Ok tt))
    as [H _]; [reflexivity | reflexivity | reflexivity | exact H].
Defined.

(** X22. [set_callback] touches the read-side slot only: however it
    ends, every other slot of [proxies], both locators, the source, the
    configs, the expected type and the cached descriptor are as before. *)
Theorem set_callback_frame (self : TangoTransport.t)
    (callback : option Callback) (subscribed : Result Z)
    (released : Result unit) :
  let s := after (TangoTransport.set_callback self callback subscribed
                    released) in
  (forall trl, trl <> TangoTransport.read_trl self ->
     TangoTransport.proxies s !! trl = TangoTransport.proxies self !! trl)
  /\ TangoTransport.read_trl s = TangoTransport.read_trl self
  /\ TangoTransport.write_trl s = TangoTransport.write_trl self
  /\ TangoTransport.source s = TangoTransport.source self
  /\ TangoTransport.trl_configs s = TangoTransport.trl_configs self
  /\ TangoTransport.datatype s = TangoTransport.datatype self
  /\ TangoTransport.descriptor s = TangoTransport.descriptor self.
Proof.
  assert (Hset : forall p,
            let s := TangoTransport.set_proxy self
                       (TangoTransport.read_trl self) p in
            (forall trl, trl <> TangoTransport.read_trl self ->
               TangoTransport.proxies s !! trl
               = TangoTransport.proxies self !! trl)
            /\ TangoTransport.read_trl s = TangoTransport.read_trl self
            /\ TangoTransport.write_trl s = TangoTransport.write_trl self
            /\ TangoTransport.source s = TangoTransport.source self
            /\ TangoTransport.trl_configs s = TangoTransport.trl_configs self
            /\ TangoTransport.datatype s = TangoTransport.datatype self
            /\ TangoTransport.descriptor s = TangoTransport.descriptor self).
  { intros p. cbn. split; [|repeat split].
    intros trl Hne. apply lookup_insert_ne. congruence. }
  unfold TangoTransport.set_callback.
  destruct (TangoTransport.proxies self !! TangoTransport.read_trl self)
    as [[|d|p]|]; cbn; try (repeat split; reflexivity).
  destruct (negb (support_events p)); cbn; [repeat split; reflexivity|].
  destruct callback as [cb|]; cbn; [|apply Hset].
  destruct (has_subscription p); cbn; [repeat split; reflexivity | apply Hset].
Qed.

(** ** Transport: put and the reads *)

Lemma transport_put_result (self self' : TangoTransport.t) (x : PyVal)
    (wait : bool) (timeout : option Q) (env : PutEnv) (fuel n : nat) :
  TangoTransport.put self x wait timeout env fuel = Returns (Ok self') n ->
  exists p p' : TangoProxy,
    TangoTransport.proxies self !! TangoTransport.write_trl self
    = Some (Endpoint p)
    /\ proxy_put p x wait timeout env fuel = Returns (Ok p') n
    /\ self' = TangoTransport.set_proxy self (TangoTransport.write_trl self) p'.
Proof.
  unfold TangoTransport.put.
  destruct (TangoTransport.proxies self !! TangoTransport.write_trl self)
    as [[|d|p]|]; try discriminate.
  destruct (proxy_put p x wait timeout env fuel) as [[p'|e] k|k] eqn:Hp;
    try discriminate.
  intros [= <- <-]. exists p, p'. repeat split. exact Hp.
Qed.

(** X23. On a transport whose single locator is a command, a synchronous
    [put] whose remote call returns [v] completes, and from then on
    [get_value] returns [v] and [get_reading] the reading made of [v],
    the completion time and quality 0, neither of them reading the device;
    [get_w_value] returns None. *)
Theorem transport_command_round_trip (self : TangoTransport.t)
    (c : CommandProxy.t) (x v : PyVal) (timeout : option Q) (env : PutEnv)
    (fuel : nat) (read_attribute : Result DeviceAttribute) :
  TangoTransport.read_trl self = TangoTransport.write_trl self ->
  TangoTransport.proxies self !! TangoTransport.write_trl self
  = Some (Endpoint (Command c)) ->
  sync_call env = Ok v ->
  exists self' : TangoTransport.t,
    TangoTransport.put self x true timeout env fuel = Returns (Ok self') 0
    /\ TangoTransport.get_value self' read_attribute = Ok v
    /\ TangoTransport.get_reading self' read_attribute
       = Ok {| value := v; timestamp := now env; alarm_severity := 0%Z |}
    /\ TangoTransport.get_w_value self' read_attribute = Ok VNone.
Proof.
  intros Hrw Hslot Hv.
  exists (TangoTransport.set_proxy self (TangoTransport.write_trl self)
            (Command (CommandProxy.store c v env))).
  unfold TangoTransport.put, TangoTransport.get_value,
    TangoTransport.get_reading, TangoTransport.get_w_value.
  rewrite Hslot. unfold proxy_put, CommandProxy.put. rewrite Hv.
  cbn [bind TangoTransport.set_proxy TangoTransport.proxies
       TangoTransport.read_trl TangoTransport.write_trl].
  rewrite Hrw, lookup_insert_eq. repeat split.
Qed.

Lemma transport_command_round_trip_witness :
  exists self' : TangoTransport.t,
    TangoTransport.put command_transport VNone true None clear_env 0
    = Returns (Ok self') 0
    /\ TangoTransport.get_value self' (Raise (DevFailed "unused"))
       = Ok (VInt 42)
    /\ TangoTransport.get_reading self' (Raise (DevFailed "unused"))
       = Ok {| value := VInt 42; timestamp := now clear_env;
               alarm_severity := 0%Z |}
    /\ TangoTransport.get_w_value self' (Raise (DevFailed "unused"))
       = Ok VNone.
Proof.
  apply (transport_command_round_trip command_transport clear_proxy VNone
           (VInt 42) None clear_env 0 (Raise (DevFailed "unused")));
    reflexivity.
Defined.

(** X24. With two different locators a [put] that completes changes the
    write-side slot only: the read-side slot is the same, [get_reading]
    answers as before the put, and locators, configs and descriptor are
    untouched. *)
Theorem transport_put_leaves_read_side (self self' : TangoTransport.t)
    (x : PyVal) (wait : bool) (timeout : option Q) (env : PutEnv)
    (fuel n : nat) (read_attribute : Result DeviceAttribute) :
  TangoTransport.read_trl self <> TangoTransport.write_trl self ->
  TangoTransport.put self x wait timeout env fuel = Returns (Ok self') n ->
  TangoTransport.proxies self' !! TangoTransport.read_trl self
  = TangoTransport.proxies self !! TangoTransport.read_trl self
  /\ TangoTransport.get_reading self' read_attribute
     = TangoTransport.get_reading self read_attribute
  /\ TangoTransport.trl_configs self' = TangoTransport.trl_configs self
  /\ TangoTransport.descriptor self' = TangoTransport.descriptor self.
Proof.
  intros Hne Hput.
  destruct (transport_put_result _ _ _ _ _ _ _ _ Hput) as [p [p' [_ [_ ->]]]].
  assert (Hl : TangoTransport.proxies
                 (TangoTransport.set_proxy self
                    (TangoTransport.write_trl self) p')
                 !! TangoTransport.read_trl self
               = TangoTransport.proxies self !! TangoTransport.read_trl self).
  { cbn. apply lookup_insert_ne. congruence. }
  split; [exact Hl|]. split; [|split; reflexivity].
  unfold TangoTransport.get_reading.
  cbn [TangoTransport.read_trl TangoTransport.set_proxy].
  cbn [TangoTransport.read_trl TangoTransport.set_proxy] in Hl.
  rewrite Hl. reflexivity.
Qed.

Definition split_transport : TangoTransport.t :=
  TangoTransport.set_proxy
    (TangoTransport.set_proxy
       (TangoTransport.__init__ None "sys/tg_test/1/State"
          "sys/tg_test/1/SwitchStates" (Some tg_test))
       "sys/tg_test/1/State"
       (Command (CommandProxy.__init__ tg_test "State")))
    "sys/tg_test/1/SwitchStates" (Command clear_proxy).

Lemma transport_put_leaves_read_side_witness :
  TangoTransport.get_reading
    (TangoTransport.set_proxy split_transport "sys/tg_test/1/SwitchStates"
       (Command (CommandProxy.store clear_proxy (VInt 42) clear_env)))
    (Raise (DevFailed "unused"))
  = TangoTransport.get_reading split_transport (Raise (DevFailed "unused")).
Proof.
  destruct (transport_put_leaves_read_side split_transport
              (TangoTransport.set_proxy split_transport
                 "sys/tg_test/1/SwitchStates"
                 (Command (CommandProxy.store clear_proxy (VInt 42) clear_env)))
              VNone true None clear_env 0 0 (Raise (DevFailed "unused")))
    as [_ [H _]].
  - discriminate.
  - reflexivity.
  - exact H.
Defined.

(** X25. A [put] through an attribute endpoint that completes, in
    whatever mode, returns the transport exactly as it was: writing never
    disturbs a subscription, a stored callback or any other state of the
    transport. *)
Theorem transport_attribute_put_pure (self self' : TangoTransport.t)
    (a : AttributeProxy.t) (x : PyVal) (wait : bool) (timeout : option Q)
    (env : PutEnv) (fuel n : nat) :
  TangoTransport.proxies self !! TangoTransport.write_trl self
  = Some (Endpoint (Attribute a)) ->
  TangoTransport.put self x wait timeout env fuel = Returns (Ok self') n ->
  self' = self.
Proof.
  intros Hslot Hput.
  destruct (transport_put_result _ _ _ _ _ _ _ _ Hput)
    as [p [p' [Hp [Hpp ->]]]].
  rewrite Hslot in Hp. injection Hp as <-.
  assert (Hp' : p' = Attribute a).
  { unfold proxy_put in Hpp.
    destruct (AttributeProxy.put a x wait timeout env fuel) as [[u|e] k|k];
      try discriminate.
    injection Hpp as <- _. reflexivity. }
  subst p'. unfold TangoTransport.set_proxy.
  rewrite (insert_id _ _ _ Hslot). destruct self; reflexivity.
Qed.

Lemma transport_attribute_put_pure_witness :
  TangoTransport.put subscribed_transport (VFloat (3 # 2)) true None
    clear_env 0
  = Returns (Ok subscribed_transport) 0.
Proof.
  destruct (TangoTransport.put subscribed_transport (VFloat (3 # 2)) true
              None clear_env 0) as [[s'|e] k|k] eqn:H;
    try (vm_compute in H; discriminate).
  rewrite (transport_attribute_put_pure subscribed_transport s'
             subscribed_proxy (VFloat (3 # 2)) true None clear_env 0 k
             eq_refl H).
  f_equal. vm_compute in H. congruence.
Defined.
